(** * pms-app: the product record store of [src/index.js]

    A shallow embedding of the non-rendering logic of the
    [ProductManagementSystem] component: renewal-date derivation, expiry
    classification, search, industry analytics, the create / update /
    delete / import handlers and the persistence effect.

    The component is JavaScript, so the embedding starts with the fragment
    of the language the handlers rely on: primitive values and their
    coercions, [parseInt], the [Date] time-value arithmetic of ECMA-262
    (section 21.4.1) and plain objects used as records and as maps. *)

From Stdlib Require Import ZArith Lia String Ascii List Bool.
From stdpp Require Import gmap strings list fin_maps pretty.

Local Open Scope string_scope.
Local Open Scope Z_scope.

(** ** JavaScript values and coercions *)

Module JS.

(** Primitive values stored in product records.  Numbers are the integer
    ones ([Date.now()] identifiers, spreadsheet cells); text typed in the
    form always arrives as a string, also in the numeric input.  [VNaN]
    is the one non-integer number that arithmetic on these can produce. *)
Inductive value : Type :=
  | VUndefined
  | VNull
  | VBool (b : bool)
  | VNumber (n : Z)
  | VNaN
  | VString (s : string).

(** Outcome of running a handler: it returns or it throws. *)
Inductive completion (A : Type) : Type :=
  | Normal (a : A)
  | Throw (error : string).
Arguments Normal {A} a.
Arguments Throw {A} error.

(** [ToBoolean]: what [!v], [v || d] and [if (v)] look at. *)
Definition truthy (v : value) : bool :=
  match v with
  | VUndefined | VNull => false
  | VBool b => b
  | VNumber n => negb (n =? 0)
  | VNaN => false
  | VString s => negb (String.eqb s "")
  end.

(** [ToString] (also [String(v)]); an integer prints in decimal. *)
Definition ToString (v : value) : string :=
  match v with
  | VUndefined => "undefined"
  | VNull => "null"
  | VBool true => "true"
  | VBool false => "false"
  | VNumber n => pretty n
  | VNaN => "NaN"
  | VString s => s
  end.

(** [a === b]. *)
Definition strictEq (a b : value) : bool :=
  match a, b with
  | VUndefined, VUndefined => true
  | VNull, VNull => true
  | VBool x, VBool y => Bool.eqb x y
  | VNumber x, VNumber y => x =? y
  | VString x, VString y => String.eqb x y
  | _, _ => false
  end.

(** [a || b]. *)
Definition or_else (a b : value) : value := if truthy a then a else b.

(** [ToNumber] of a value that is not a string. *)
Definition ToNumber (v : value) : option Z :=
  match v with
  | VNumber n => Some n
  | VBool true => Some 1
  | VBool false => Some 0
  | VNull => Some 0
  | VUndefined | VNaN | VString _ => None
  end.

Definition ofNumber (n : option Z) : value :=
  match n with Some z => VNumber z | None => VNaN end.

(** [x + y] on numbers, [None] being [NaN]. *)
Definition numAdd (x y : option Z) : option Z :=
  match x, y with
  | Some a, Some b => Some (a + b)
  | _, _ => None
  end.

(** [a + b]: concatenation as soon as one side is a string. *)
Definition plus (a b : value) : value :=
  match a, b with
  | VString _, _ | _, VString _ => VString (ToString a ++ ToString b)
  | _, _ => ofNumber (numAdd (ToNumber a) (ToNumber b))
  end.

(** *** Strings *)

(** Text is a sequence of bytes; white space and letter case are those of
    ASCII. *)

Definition isWhiteSpace (c : ascii) : bool :=
  let n := Z.of_nat (nat_of_ascii c) in
  ((9 <=? n) && (n <=? 13)) || (n =? 32).

Fixpoint trimStart (s : string) : string :=
  match s with
  | String c s' => if isWhiteSpace c then trimStart s' else s
  | EmptyString => s
  end.

(** Value of a character as a digit in some radix up to 36. *)
Definition digitValue (c : ascii) : option Z :=
  let n := Z.of_nat (nat_of_ascii c) in
  if (48 <=? n) && (n <=? 57) then Some (n - 48)
  else if (97 <=? n) && (n <=? 122) then Some (n - 87)
  else if (65 <=? n) && (n <=? 90) then Some (n - 55)
  else None.

(** The longest prefix of radix-[R] digits, read as a number; [acc] is
    [None] as long as no digit was seen. *)
Fixpoint parseDigits (R : Z) (s : string) (acc : option Z) : option Z :=
  match s with
  | String c s' =>
      match digitValue c with
      | Some d =>
          if d <? R
          then parseDigits R s' (Some (R * default 0 acc + d))
          else acc
      | None => acc
      end
  | EmptyString => acc
  end.

Definition stripSign (s : string) : Z * string :=
  match s with
  | String "-" s' => (-1, s')
  | String "+" s' => (1, s')
  | _ => (1, s)
  end.

Definition stripHexPrefix (s : string) : Z * string :=
  match s with
  | String "0" (String "x" s') => (16, s')
  | String "0" (String "X" s') => (16, s')
  | _ => (10, s)
  end.

(** [parseInt(v)] without a radix argument; [None] is [NaN]. *)
Definition parseInt (v : value) : option Z :=
  let '(sign, s1) := stripSign (trimStart (ToString v)) in
  let '(R, s2) := stripHexPrefix s1 in
  match parseDigits R s2 None with
  | Some n => Some (sign * n)
  | None => None
  end.

Definition toLowerChar (c : ascii) : ascii :=
  let n := nat_of_ascii c in
  if ((65 <=? n) && (n <=? 90))%nat then ascii_of_nat (n + 32) else c.

Fixpoint toLowerCase (s : string) : string :=
  match s with
  | String c s' => String (toLowerChar c) (toLowerCase s')
  | EmptyString => EmptyString
  end.

Fixpoint startsWith (s t : string) : bool :=
  match t, s with
  | EmptyString, _ => true
  | String b t', String a s' => Ascii.eqb a b && startsWith s' t'
  | String _ _, EmptyString => false
  end.

(** [s.includes(t)]. *)
Fixpoint includes (s t : string) : bool :=
  startsWith s t ||
  match s with
  | String _ s' => includes s' t
  | EmptyString => false
  end.

(** [s.split(sep)[0]] for a one-character separator: the text before its
    first occurrence, the whole string when there is none. *)
Fixpoint splitHead (sep : ascii) (s : string) : string :=
  match s with
  | String c s' => if Ascii.eqb c sep then EmptyString else String c (splitHead sep s')
  | EmptyString => EmptyString
  end.

(** *** The host *)

(** A time value is a number of milliseconds since the epoch, or [NaN]. *)
Definition timeValue := option Z.

(** What the browser supplies and the language leaves open: the offset of
    local time from UTC, in milliseconds, at a given time
    ([LocalTZA(t, isUTC)]); the result of [Date.parse] on text outside the
    ISO calendar-date form; the source text printed for the built-in
    function stored under a given key of [Object.prototype]. *)
Record Host : Type := {
  LocalTZA : Z -> bool -> Z;
  parseFallback : string -> timeValue;
  nativeFunctionText : string -> string
}.

(** *** Plain objects *)

(** An object, as its own properties.  A product record is read under
    fixed property names, none of which is defined on [Object.prototype],
    so that such a read is the lookup of an own property ([get]).  The
    accumulator of [industryAnalytics] is read and written under
    arbitrary keys ([getAny], [setAny]). *)
Abbreviation object := (gmap string value).

(** [o[k]] / [o.k]. *)
Definition get (o : object) (k : string) : value := default VUndefined (o !! k).

(** [{ ...o, k: v }]. *)
Definition spreadWith (o : object) (k : string) (v : value) : object := <[k := v]> o.

(** [Object.values(o)]. *)
Definition values (o : object) : list value := (map_to_list o).*2.

(** An object literal [{}] inherits from [Object.prototype]; these are the
    keys found there. *)
Definition objectPrototypeKeys : list string :=
  [ "constructor"; "hasOwnProperty"; "isPrototypeOf"; "propertyIsEnumerable";
    "toLocaleString"; "toString"; "valueOf"; "__proto__";
    "__defineGetter__"; "__defineSetter__"; "__lookupGetter__"; "__lookupSetter__" ].

Definition inherited (k : string) : bool :=
  existsb (String.eqb k) objectPrototypeKeys.

(** What reading [o[k]] finds for an arbitrary key [k]: a primitive (an
    own property, or [undefined]) or a built-in object inherited from the
    prototype. *)
Inductive slot : Type :=
  | Primitive (v : value)
  | Builtin (k : string).

Definition getAny (o : object) (k : string) : slot :=
  match o !! k with
  | Some v => Primitive v
  | None => if inherited k then Builtin k else Primitive VUndefined
  end.

(** [ToString] of a built-in: every key holds a function, except
    [__proto__], whose getter returns the prototype object itself. *)
Definition builtinText (h : Host) (k : string) : string :=
  if String.eqb k "__proto__" then "[object Object]" else nativeFunctionText h k.

(** [o[k] = v] for a primitive [v]: the [__proto__] setter ignores it,
    any other key becomes (or stays) an own property. *)
Definition setAny (o : object) (k : string) (v : value) : object :=
  if String.eqb k "__proto__" then o else <[k := v]> o.

End JS.

(** ** Dates: time values of ECMA-262, section 21.4.1 *)

Module JSDate.
Import JS.

Definition msPerDay : Z := 86400000.
Definition msPerHour : Z := 3600000.
Definition msPerMinute : Z := 60000.
Definition msPerSecond : Z := 1000.

Definition Day (t : Z) : Z := t / msPerDay.
Definition TimeWithinDay (t : Z) : Z := t mod msPerDay.

Definition DaysInYear (y : Z) : Z :=
  if negb (y mod 4 =? 0) then 365
  else if negb (y mod 100 =? 0) then 366
  else if negb (y mod 400 =? 0) then 365
  else 366.

Definition DayFromYear (y : Z) : Z :=
  365 * (y - 1970) + (y - 1969) / 4 - (y - 1901) / 100 + (y - 1601) / 400.

Definition TimeFromYear (y : Z) : Z := msPerDay * DayFromYear y.

(** The year whose first day is the latest one not after day [d]: a
    closed-form estimate from the mean year length, which is at most one
    year off, then corrected against [DayFromYear]. *)
Definition YearFromDay (d : Z) : Z :=
  let c := 1970 + (400 * d) / 146097 in
  if d <? DayFromYear c then c - 1
  else if DayFromYear (c + 1) <=? d then c + 1
  else c.

Definition YearFromTime (t : Z) : Z := YearFromDay (Day t).

(** 1 in a leap year, 0 otherwise. *)
Definition LeapDays (y : Z) : Z := if DaysInYear y =? 366 then 1 else 0.

Definition InLeapYear (t : Z) : Z := LeapDays (YearFromTime t).

Definition DayWithinYear (t : Z) : Z := Day t - DayFromYear (YearFromTime t).

(** Day within the year on which month [mn] (0 to 11) starts. *)
Definition monthStart (mn leap : Z) : Z :=
  if mn =? 0 then 0
  else if mn =? 1 then 31
  else if mn =? 2 then 59 + leap
  else if mn =? 3 then 90 + leap
  else if mn =? 4 then 120 + leap
  else if mn =? 5 then 151 + leap
  else if mn =? 6 then 181 + leap
  else if mn =? 7 then 212 + leap
  else if mn =? 8 then 243 + leap
  else if mn =? 9 then 273 + leap
  else if mn =? 10 then 304 + leap
  else 334 + leap.

Definition MonthFromTime (t : Z) : Z :=
  let d := DayWithinYear t in
  let l := InLeapYear t in
  if d <? 31 then 0
  else if d <? 59 + l then 1
  else if d <? 90 + l then 2
  else if d <? 120 + l then 3
  else if d <? 151 + l then 4
  else if d <? 181 + l then 5
  else if d <? 212 + l then 6
  else if d <? 243 + l then 7
  else if d <? 273 + l then 8
  else if d <? 304 + l then 9
  else if d <? 334 + l then 10
  else 11.

Definition DateFromTime (t : Z) : Z :=
  DayWithinYear t - monthStart (MonthFromTime t) (InLeapYear t) + 1.

Definition HourFromTime (t : Z) : Z := (t / msPerHour) mod 24.
Definition MinFromTime (t : Z) : Z := (t / msPerMinute) mod 60.
Definition SecFromTime (t : Z) : Z := (t / msPerSecond) mod 60.
Definition msFromTime (t : Z) : Z := t mod msPerSecond.

(** [MakeDay]: months outside 0..11 carry into the year, and the day of
    the month is added to the first of that month without any check
    against the month's length. *)
Definition MakeDay (year month date : Z) : Z :=
  let ym := year + month / 12 in
  let mn := month mod 12 in
  DayFromYear ym + monthStart mn (LeapDays ym) + date - 1.

Definition MakeDate (day time : Z) : Z := day * msPerDay + time.

(** A time value is a number of milliseconds since the epoch, or [NaN]
    ([JS.timeValue]). *)

Definition TimeClip (t : Z) : timeValue :=
  if 8640000000000000 <? Z.abs t then None else Some t.

Definition LocalTime (h : Host) (t : Z) : Z := t + LocalTZA h t true.
Definition UTC (h : Host) (t : Z) : Z := t - LocalTZA h t false.

(** Number of days of month [m] (1 to 12) of year [y]. *)
Definition daysInMonth (y m : Z) : Z :=
  if m =? 2 then 28 + LeapDays y
  else if (m =? 4) || (m =? 6) || (m =? 9) || (m =? 11) then 30
  else 31.

Definition decimalDigit (c : ascii) : option Z :=
  let n := Z.of_nat (nat_of_ascii c) in
  if (48 <=? n) && (n <=? 57) then Some (n - 48) else None.

(** The fields of text of the form YYYY-MM-DD. *)
Definition isoFields (s : string) : option (Z * Z * Z) :=
  match s with
  | String y1 (String y2 (String y3 (String y4 (String "-"
      (String m1 (String m2 (String "-" (String d1 (String d2 EmptyString))))))))) =>
      match decimalDigit y1, decimalDigit y2, decimalDigit y3, decimalDigit y4,
            decimalDigit m1, decimalDigit m2, decimalDigit d1, decimalDigit d2 with
      | Some a, Some b, Some c, Some d, Some e, Some f, Some g, Some i =>
          Some (1000 * a + 100 * b + 10 * c + d, 10 * e + f, 10 * g + i)
      | _, _, _, _, _, _, _, _ => None
      end
  | _ => None
  end.

(** [Date.parse]: a calendar date in ISO form is midnight UTC of that day;
    anything else is the host's business. *)
Definition parse (h : Host) (s : string) : timeValue :=
  match isoFields s with
  | Some (y, m, d) =>
      if (1 <=? m) && (m <=? 12) && (1 <=? d) && (d <=? daysInMonth y m)
      then Some (MakeDate (MakeDay y (m - 1) d) 0)
      else parseFallback h s
  | None => parseFallback h s
  end.

(** [new Date(v)]. *)
Definition construct (h : Host) (v : value) : timeValue :=
  match v with
  | VString s => match parse h s with Some t => TimeClip t | None => None end
  | VNumber n => TimeClip n
  | VNaN => None
  | VBool true => Some 1
  | VBool false => Some 0
  | VNull => Some 0
  | VUndefined => None
  end.

(** [date.getMonth()], in local time. *)
Definition getMonth (h : Host) (tv : timeValue) : option Z :=
  match tv with
  | Some t => Some (MonthFromTime (LocalTime h t))
  | None => None
  end.

(** The time value left in the object by [date.setMonth(m)]. *)
Definition setMonth (h : Host) (tv : timeValue) (m : option Z) : timeValue :=
  match tv, m with
  | Some t0, Some m =>
      let t := LocalTime h t0 in
      let newDate := MakeDate (MakeDay (YearFromTime t) m (DateFromTime t)) (TimeWithinDay t) in
      TimeClip (UTC h newDate)
  | _, _ => None
  end.

Definition digitChar (n : Z) : ascii := ascii_of_nat (48 + Z.to_nat n).

Definition pad2 (n : Z) : string :=
  String (digitChar (n / 10)) (String (digitChar (n mod 10)) EmptyString).

Definition pad3 (n : Z) : string :=
  String (digitChar (n / 100)) (pad2 (n mod 100)).

Definition pad4 (n : Z) : string :=
  String (digitChar (n / 1000)) (pad3 (n mod 1000)).

Definition pad6 (n : Z) : string :=
  pad2 (n / 10000) ++ pad4 (n mod 10000).

(** The year of an ISO string: four digits from 0 to 9999, otherwise a
    sign and six digits. *)
Definition isoYear (y : Z) : string :=
  if (0 <=? y) && (y <=? 9999) then pad4 y
  else if y <? 0 then String "-" (pad6 (- y))
  else String "+" (pad6 y).

Definition isoDate (t : Z) : string :=
  isoYear (YearFromTime t) ++ "-" ++ pad2 (MonthFromTime t + 1) ++ "-" ++ pad2 (DateFromTime t).

Definition isoTime (t : Z) : string :=
  pad2 (HourFromTime t) ++ ":" ++ pad2 (MinFromTime t) ++ ":" ++ pad2 (SecFromTime t)
  ++ "." ++ pad3 (msFromTime t) ++ "Z".

(** [date.toISOString()], in UTC; an invalid date makes it throw. *)
Definition toISOString (tv : timeValue) : completion string :=
  match tv with
  | Some t => Normal (isoDate t ++ "T" ++ isoTime t)
  | None => Throw "RangeError"
  end.

End JSDate.

(** ** The component *)

Module App.
Import JS JSDate.

(** *** Derivation: [calculateRenewalDate], [isExpired] *)

Definition calculateRenewalDate (h : Host) (activationDate validityMonths : value)
  : completion string :=
  if negb (truthy activationDate) || negb (truthy validityMonths) then Normal ""
  else
    let date := construct h activationDate in
    let date := setMonth h date (numAdd (getMonth h date) (parseInt validityMonths)) in
    match toISOString date with
    | Normal s => Normal (splitHead "T" s)
    | Throw e => Throw e
    end.

(** [now] is the time value of [new Date()]. *)
Definition isExpired (h : Host) (now : Z) (renewalDate : value) : bool :=
  if negb (truthy renewalDate) then false
  else
    match construct h renewalDate with
    | Some t => t <? now
    | None => false
    end.

(** *** Component state *)

(** The options of the column selector. *)
Inductive column : Type :=
  | AllColumns | SerialNumber | ProductName | EndUserName | DeviceUID | IndustryCategory.

Definition columnKey (c : column) : string :=
  match c with
  | AllColumns => "all"
  | SerialNumber => "serialNumber"
  | ProductName => "productName"
  | EndUserName => "endUserName"
  | DeviceUID => "deviceUID"
  | IndustryCategory => "industryCategory"
  end.

(** [productsId] is the identity of the array held in the [products]
    cell: every [setProducts] call of the component passes a new array. *)
Record state : Type := {
  products : list object;
  productsId : nat;
  searchTerm : string;
  filterColumn : column;
  showAddModal : bool;
  editingProduct : option object
}.

Definition setProducts (l : list object) (st : state) : state :=
  {| products := l; productsId := S (productsId st);
     searchTerm := searchTerm st; filterColumn := filterColumn st;
     showAddModal := showAddModal st; editingProduct := editingProduct st |}.

Definition setShowAddModal (b : bool) (st : state) : state :=
  {| products := products st; productsId := productsId st;
     searchTerm := searchTerm st; filterColumn := filterColumn st;
     showAddModal := b; editingProduct := editingProduct st |}.

Definition setEditingProduct (e : option object) (st : state) : state :=
  {| products := products st; productsId := productsId st;
     searchTerm := searchTerm st; filterColumn := filterColumn st;
     showAddModal := showAddModal st; editingProduct := e |}.

Definition setSearchTerm (term : string) (st : state) : state :=
  {| products := products st; productsId := productsId st;
     searchTerm := term; filterColumn := filterColumn st;
     showAddModal := showAddModal st; editingProduct := editingProduct st |}.

Definition setFilterColumn (c : column) (st : state) : state :=
  {| products := products st; productsId := productsId st;
     searchTerm := searchTerm st; filterColumn := c;
     showAddModal := showAddModal st; editingProduct := editingProduct st |}.

(** The state of a freshly mounted component. *)
Definition initialState : state :=
  {| products := []; productsId := 0; searchTerm := ""; filterColumn := AllColumns;
     showAddModal := false; editingProduct := None |}.

(** *** Handlers *)

(** [importFromExcel]; [file] is the sheet of [e.target.files[0]] as
    [sheet_to_json] returns it, [None] when no file was chosen. *)
Definition importFromExcel (file : option (list object)) (st : state) : completion state :=
  match file with
  | None => Normal st
  | Some data => Normal (setProducts data st)
  end.

(** [saveProduct]; [now] is the value of [Date.now()]. *)
Definition saveProduct (now : Z) (productData : object) (st : state) : completion state :=
  let st1 :=
    match editingProduct st with
    | Some editing =>
        setProducts
          (List.map (fun p => if strictEq (get p "id") (get editing "id")
                              then spreadWith productData "id" (get editing "id")
                              else p)
                    (products st)) st
    | None =>
        setProducts (products st ++ [spreadWith productData "id" (VNumber now)])%list st
    end in
  Normal (setEditingProduct None (setShowAddModal false st1)).

(** [deleteProduct]; [confirmed] is the answer to [window.confirm]. *)
Definition deleteProduct (confirmed : bool) (id : value) (st : state) : completion state :=
  if confirmed
  then Normal (setProducts (List.filter (fun p => negb (strictEq (get p "id") id)) (products st)) st)
  else Normal st.

(** *** The form of [ProductModal] *)

(** The [errors] object, as its entries in insertion order. *)
Definition errors := list (string * string).

Definition requireField (formData : object) (key message : string) (newErrors : errors) : errors :=
  if negb (truthy (get formData key)) then (newErrors ++ [(key, message)])%list else newErrors.

(** [validateForm]: the new [errors] and the returned flag. *)
Definition validateForm (formData : object) : errors * bool :=
  let newErrors := [] in
  let newErrors := requireField formData "serialNumber" "S/N# is required" newErrors in
  let newErrors := requireField formData "productName" "Product Name is required" newErrors in
  let newErrors := requireField formData "activationDate" "Activation Date is required" newErrors in
  let newErrors := requireField formData "validityPeriod" "Validity Period is required" newErrors in
  let newErrors := requireField formData "deviceUID" "Device UID is required" newErrors in
  let newErrors := requireField formData "endUserName" "End User Name is required" newErrors in
  let newErrors := requireField formData "industryCategory" "Industry Category is required" newErrors in
  (newErrors, (length newErrors =? 0)%nat).

(** [handleSubmit]: the component state and the form's [errors] after the
    click. *)
Definition handleSubmit (now : Z) (formData : object) (st : state) : completion (state * errors) :=
  let '(newErrors, ok) := validateForm formData in
  if ok then
    match saveProduct now formData st with
    | Normal st' => Normal (st', [])
    | Throw e => Throw e
    end
  else Normal (st, newErrors).

(** The effect of the form that fills in [renewalDate]. *)
Definition renewalEffect (h : Host) (formData : object) : completion object :=
  if truthy (get formData "activationDate") && truthy (get formData "validityPeriod") then
    match calculateRenewalDate h (get formData "activationDate") (get formData "validityPeriod") with
    | Normal renewal => Normal (spreadWith formData "renewalDate" (VString renewal))
    | Throw e => Throw e
    end
  else Normal formData.

(** *** Persistence *)

(** [localStorage] under the key ['products']: the snapshots written by
    [setItem], newest first.  A snapshot stands for its JSON text. *)
Definition storage := list (list object).

(** The persisting effect, run after a render in which [products] is a new
    array. *)
Definition persistEffect (st : state) (ls : storage) : storage :=
  if (0 <? length (products st))%nat then products st :: ls else ls.

(** Mounting the component: the loading effect reads the store and, when
    something is there, puts it in [products]; the persisting effect sees
    the empty array of the first render, and then the loaded one. *)
Definition mount (ls : storage) : state * storage :=
  match ls with
  | savedProducts :: _ =>
      let st := setProducts savedProducts initialState in
      (st, persistEffect st ls)
  | [] => (initialState, ls)
  end.

Inductive event : Type :=
  | Submit (now : Z) (formData : object)
  | Delete (confirmed : bool) (id : value)
  | Import (file : option (list object)).

Definition handle (ev : event) (st : state) : completion state :=
  match ev with
  | Submit now formData =>
      match handleSubmit now formData st with
      | Normal (st', _) => Normal st'
      | Throw e => Throw e
      end
  | Delete confirmed id => deleteProduct confirmed id st
  | Import file => importFromExcel file st
  end.

(** One user action: the handler runs, the component renders again, and
    the effect fires when its dependency [products] has changed. *)
Definition step (ev : event) (w : state * storage) : state * storage :=
  let '(st, ls) := w in
  match handle ev st with
  | Normal st' =>
      if (productsId st' =? productsId st)%nat then (st', ls)
      else (st', persistEffect st' ls)
  | Throw _ => (st, ls)
  end.

(** *** Views *)

(** The predicate of [filteredProducts]. *)
Definition matchesSearch (searchTerm : string) (filterColumn : column) (product : object) : bool :=
  if negb (truthy (VString searchTerm)) then true
  else if String.eqb (columnKey filterColumn) "all" then
    existsb (fun val => includes (toLowerCase (ToString val)) (toLowerCase searchTerm))
            (values product)
  else
    includes (toLowerCase (ToString (or_else (get product (columnKey filterColumn)) (VString ""))))
             (toLowerCase searchTerm).

Definition filteredProducts (st : state) : list object :=
  List.filter (matchesSearch (searchTerm st) (filterColumn st)) (products st).

Definition expiredProducts (h : Host) (now : Z) (st : state) : list object :=
  List.filter (fun p => isExpired h now (get p "renewalDate")) (products st).

(** One round of the reducer of [industryAnalytics]. *)
Definition countIndustry (h : Host) (acc : object) (product : object) : object :=
  let industry := ToString (or_else (get product "industryCategory") (VString "Uncategorized")) in
  let current :=
    match getAny acc industry with
    | Primitive v => plus (or_else v (VNumber 0)) (VNumber 1)
    | Builtin k => VString (builtinText h k ++ "1")
    end in
  setAny acc industry current.

Definition industryAnalytics (h : Host) (st : state) : object :=
  fold_left (countIndustry h) (products st) ∅.

End App.

(** ** The pages: what the dashboard, the client list and the toolbar compute *)

(** One entry of [clientDetails]. *)
Module ClientDetail.
Record t : Type := {
  name : JS.value;
  products : list JS.object;
  totalProducts : nat;
  expiredProducts : nat;
  industries : list JS.value
}.
End ClientDetail.

Module Pages.
Import JS JSDate App.

(** The equality of [Set]: [===], except that [NaN] is equal to itself. *)
Definition sameValueZero (a b : value) : bool :=
  match a, b with
  | VNaN, VNaN => true
  | _, _ => strictEq a b
  end.

(** [set.add(x)] on the elements of a [Set] in insertion order. *)
Definition setAdd (seen : list value) (x : value) : list value :=
  if existsb (sameValueZero x) seen then seen else (seen ++ [x])%list.

(** [[...new Set(l)]]. *)
Definition distinct (l : list value) : list value := fold_left setAdd l [].

Definition clients (st : state) : list value :=
  distinct (List.filter truthy (List.map (fun p => get p "endUserName") (products st))).

(** [clientDetails] of [ClientsList]. *)
Definition clientDetails (h : Host) (now : Z) (st : state) : list ClientDetail.t :=
  List.map
    (fun client =>
       {| ClientDetail.name := client;
          ClientDetail.products :=
            List.filter (fun p => strictEq (get p "endUserName") client) (products st);
          ClientDetail.totalProducts :=
            length (List.filter (fun p => strictEq (get p "endUserName") client) (products st));
          ClientDetail.expiredProducts :=
            length (List.filter
                      (fun p => strictEq (get p "endUserName") client
                                && isExpired h now (get p "renewalDate"))
                      (products st));
          ClientDetail.industries :=
            distinct (List.map (fun p => get p "industryCategory")
                        (List.filter (fun p => strictEq (get p "endUserName") client)
                           (products st))) |})
    (clients st).

(** The rows of the two distribution cards of [Analytics]: for each label
    of a fixed list, the number of records whose field is that text. *)
Definition distribution (field : string) (labels : list string) (st : state)
  : list (string * nat) :=
  List.map
    (fun label =>
       (label, length (List.filter (fun p => strictEq (get p field) (VString label))
                         (products st))))
    labels.

Definition networkTypeDistribution (st : state) : list (string * nat) :=
  distribution "networkType" ["2G"; "4G"] st.

Definition simProviderDistribution (st : state) : list (string * nat) :=
  distribution "simProvider" ["VI"; "AIRTEL"] st.

(** [Object.keys(industryAnalytics).length], the "Industries Served" card. *)
Definition industriesServed (h : Host) (st : state) : nat :=
  size (industryAnalytics h st).

(** [daysOverdue] of the dashboard table; [None] is [NaN].  The numbers of
    the component are doubles: the subtraction and the division by a day
    are exact as long as the difference is below 2^53 ms. *)
Definition daysOverdue (h : Host) (now : Z) (renewalDate : value) : option Z :=
  match construct h renewalDate with
  | Some t => Some ((now - t) / (1000 * 60 * 60 * 24))
  | None => None
  end.

(** The file name that [exportToExcel] passes to [XLSX.writeFile]; [now]
    is the time value of [new Date()]. *)
Definition exportFileName (now : Z) : completion string :=
  match toISOString (Some now) with
  | Normal s => Normal ("Product_Inventory_" ++ splitHead "T" s ++ ".xlsx")
  | Throw e => Throw e
  end.

(** The form that [ProductModal] opens with. *)
Definition blankForm : object :=
  list_to_map
    [ ("serialNumber", VString ""); ("oemSerialNumber", VString "");
      ("productName", VString ""); ("model", VString "");
      ("networkType", VString "4G"); ("cableLength", VString "");
      ("installationDate", VString ""); ("activationDate", VString "");
      ("validityPeriod", VString ""); ("renewalDate", VString "");
      ("deviceUID", VString ""); ("simProvider", VString "VI");
      ("simNumber", VString ""); ("channelPartner", VString "");
      ("endUserName", VString ""); ("industryCategory", VString "") ].

Definition initialFormData (st : state) : object :=
  match editingProduct st with
  | Some editing => editing
  | None => blankForm
  end.

(** The edit button of a row. *)
Definition openEditor (product : object) (st : state) : state :=
  setShowAddModal true (setEditingProduct (Some product) st).

(** The close and cancel buttons of the modal. *)
Definition closeModal (st : state) : state :=
  setEditingProduct None (setShowAddModal false st).

(** A session: the component is mounted on a store and the user actions
    follow one another. *)
Definition run (events : list event) (ls : storage) : state * storage :=
  fold_left (fun w ev => step ev w) events (mount ls).

End Pages.

(** ** Vocabulary of the specification *)

Module Spec.
Import JS JSDate App.

(** The text of a calendar date, as the date input and [toISOString]
    write it. *)
Definition dateText (y m d : Z) : string :=
  isoYear y ++ "-" ++ pad2 m ++ "-" ++ pad2 d.

Definition showDate (date : Z * Z * Z) : string :=
  let '(y, m, d) := date in dateText y m d.

Definition validDate (y m d : Z) : Prop :=
  1 <= m <= 12 /\ 1 <= d <= daysInMonth y m.

(** Adding [n] months the way the specification words it: the day of the
    month is kept when the target month has it and is otherwise replaced
    by the target month's last day. *)
Definition addMonthsClamped (y m d n : Z) : Z * Z * Z :=
  let k := m - 1 + n in
  let ty := y + k / 12 in
  let tm := k mod 12 + 1 in
  (ty, tm, Z.min d (daysInMonth ty tm)).

(** Adding [n] months with the excess days carried into the month that
    follows the target month. *)
Definition addMonthsRolling (y m d n : Z) : Z * Z * Z :=
  let k := m - 1 + n in
  let ty := y + k / 12 in
  let tm := k mod 12 + 1 in
  if d <=? daysInMonth ty tm then (ty, tm, d)
  else (ty, tm + 1, d - daysInMonth ty tm).

(** A host whose local time is at a constant offset from UTC (a zone
    without daylight-saving transitions). *)
Definition fixedOffset (h : Host) (off : Z) : Prop :=
  forall t u, LocalTZA h t u = off.

Definition fixedHost (off : Z) : Host :=
  {| LocalTZA := fun _ _ => off;
     parseFallback := fun _ => None;
     nativeFunctionText := fun k =>
       "function " ++ (if String.eqb k "constructor" then "Object" else k)
       ++ "() { [native code] }" |}.

Definition utc : Host := fixedHost 0.

(** India Standard Time, UTC+05:30. *)
Definition ist : Host := fixedHost 19800000.

(** A zone five hours west of UTC. *)
Definition west5 : Host := fixedHost (-18000000).

(** The fields the specification calls required. *)
Definition requiredFields : list string :=
  [ "serialNumber"; "productName"; "deviceUID"; "activationDate";
    "validityPeriod"; "endUserName"; "industryCategory" ].

(** The keys that [validateForm] checks, in the order of its tests. *)
Definition validatedFields : list string :=
  [ "serialNumber"; "productName"; "activationDate"; "validityPeriod";
    "deviceUID"; "endUserName"; "industryCategory" ].

(** The bucket a record is counted under by [industryAnalytics]. *)
Definition industryKey (product : object) : string :=
  ToString (or_else (get product "industryCategory") (VString "Uncategorized")).

Definition countOf (v : value) : Z :=
  match v with VNumber n => n | _ => 0 end.

(** The sum of the numeric counts of an analytics object. *)
Definition totalCount (acc : object) : Z :=
  map_fold (fun _ v total => countOf v + total) 0 acc.

(** Every bucket of an analytics object holds a positive number. *)
Definition counted (acc : object) : Prop :=
  map_Forall (fun _ v => exists n, v = VNumber n /\ 0 < n) acc.

(** The number of records of [l] counted under the key [k]. *)
Definition records_under (k : string) (l : list object) : nat :=
  length (List.filter (fun p => String.eqb (industryKey p) k) l).

(** An analytics object that holds, under every key, the count that
    [count] gives for it, and no entry where that count is 0. *)
Definition holds (acc : object) (count : string -> nat) : Prop :=
  forall k, acc !! k = if (count k =? 0)%nat then None
                       else Some (VNumber (Z.of_nat (count k))).

(** The store is in step with the record set: its newest snapshot is the
    record set, unless the record set is empty. *)
Definition synced (w : state * storage) : Prop :=
  products (fst w) = [] \/ head (snd w) = Some (products (fst w)).

Definition no_empty_snapshot (ls : storage) : Prop :=
  Forall (fun snapshot => snapshot <> []) ls.

(** A digit from 1 to 9, as the first character of the text of a
    positive number. *)
Definition leading (c : ascii) : Prop :=
  exists k, (1 <= k < 10)%N /\ c = pretty_N_char k.

(** An object literal. *)
Definition obj (fields : list (string * value)) : object := list_to_map fields.

Definition withProducts (l : list object) : state := setProducts l initialState.

End Spec.

(** ** Sample data *)

Module Samples.
Import JS App Spec.

(** 2024-11-02T00:00:00Z. *)
Definition today : Z := 1730505600000.

(** A row of an imported sheet that has a renewal date and no validity
    period. *)
Definition legacyRow : object :=
  obj [("serialNumber", VString "SN-7"); ("renewalDate", VString "2020-01-01")].

(** A row without dates. *)
Definition undatedRow : object :=
  obj [("serialNumber", VString "SN-8"); ("renewalDate", VString "")].

(** A row of an imported sheet with the inputs of the derivation, and
    neither [renewalDate] nor [id]. *)
Definition bareRow : object :=
  obj [("serialNumber", VString "SN-9"); ("activationDate", VString "2024-03-15");
       ("validityPeriod", VNumber 12)].

(** A stored record, as the form creates it. *)
Definition stored : object :=
  obj [("serialNumber", VString "SN-1"); ("productName", VString "DWLR");
       ("deviceUID", VString "UID-1"); ("activationDate", VString "2024-03-15");
       ("validityPeriod", VString "12"); ("renewalDate", VString "2025-03-15");
       ("endUserName", VString "Acme"); ("industryCategory", VString "Mining");
       ("id", VNumber 1700000000000)].

(** The same record under an identifier that is not in the set. *)
Definition stranger : object := spreadWith stored "id" (VNumber 42).

(** A form with the end user's name left empty. *)
Definition incomplete : object :=
  obj [("serialNumber", VString "SN-2"); ("productName", VString "DWLR");
       ("deviceUID", VString "UID-2"); ("activationDate", VString "2024-03-15");
       ("validityPeriod", VString "12"); ("renewalDate", VString "2025-03-15");
       ("endUserName", VString ""); ("industryCategory", VString "Mining")].

(** A record whose category is a key of [Object.prototype]. *)
Definition protoRow : object :=
  obj [("serialNumber", VString "SN-3"); ("industryCategory", VString "__proto__")].

(** Another one, under a key that holds a function. *)
Definition constructorRow : object :=
  obj [("serialNumber", VString "SN-4"); ("industryCategory", VString "constructor")].

(** The form as typed, before the effect has filled in the renewal date. *)
Definition typed : object :=
  obj [("serialNumber", VString "SN-5"); ("productName", VString "DWLR");
       ("deviceUID", VString "UID-5"); ("activationDate", VString "2024-03-15");
       ("validityPeriod", VString "12"); ("renewalDate", VString "");
       ("endUserName", VString "Acme"); ("industryCategory", VString "Mining")].

(** The entry of [stored]'s client in the client list. *)
Definition storedDetail : ClientDetail.t :=
  {| ClientDetail.name := VString "Acme";
     ClientDetail.products := [stored];
     ClientDetail.totalProducts := 1;
     ClientDetail.expiredProducts := 0;
     ClientDetail.industries := [VString "Mining"] |}.

Definition alpha : object := obj [("productName", VString "Alpha")].
Definition beta : object := obj [("productName", VString "beta")].

End Samples.

(** * Properties *)

(** ** Calendar arithmetic *)

Module DateFacts.
Import JS JSDate App Spec.

Lemma DayFromYear_succ y : DayFromYear (y + 1) = DayFromYear y + DaysInYear y.
Proof.
  unfold DayFromYear, DaysInYear.
  replace (y + 1 - 1969) with (y - 1969 + 1) by lia.
  replace (y + 1 - 1901) with (y - 1901 + 1) by lia.
  replace (y + 1 - 1601) with (y - 1601 + 1) by lia.
  repeat match goal with |- context [?a =? ?b] => destruct (Z.eqb_spec a b) end; simpl;
  Z.div_mod_to_equations; lia.
Qed.

Lemma YearFromDay_unique y d :
  DayFromYear y <= d < DayFromYear (y + 1) -> YearFromDay d = y.
Proof.
  intros H. unfold YearFromDay.
  set (c := 1970 + 400 * d / 146097).
  assert (Hc : y - 1 <= c <= y + 1).
  { subst c. unfold DayFromYear in H. Z.div_mod_to_equations. lia. }
  assert (Hm : forall a, DayFromYear a < DayFromYear (a + 1)).
  { intros a. rewrite DayFromYear_succ. unfold DaysInYear.
    repeat match goal with |- context [?a =? ?b] => destruct (Z.eqb_spec a b) end; simpl; lia. }
  assert (c = y - 1 \/ c = y \/ c = y + 1) as [E|[E|E]] by lia; rewrite E.
  - pose proof (Hm (y - 1)). replace (y - 1 + 1) with y in * by lia.
    destruct (Z.ltb_spec d (DayFromYear (y - 1))); [lia|].
    destruct (Z.leb_spec (DayFromYear y) d); lia.
  - destruct (Z.ltb_spec d (DayFromYear y)); [lia|].
    destruct (Z.leb_spec (DayFromYear (y + 1)) d); lia.
  - destruct (Z.ltb_spec d (DayFromYear (y + 1))); lia.
Qed.

(** [YearFromDay] is the year the standard asks for: the one whose first
    day is the latest not after day [d]. *)
Lemma YearFromDay_correct d :
  DayFromYear (YearFromDay d) <= d < DayFromYear (YearFromDay d + 1).
Proof.
  unfold YearFromDay.
  set (c := 1970 + 400 * d / 146097).
  assert (Hlo : DayFromYear (c - 1) <= d).
  { subst c. unfold DayFromYear. Z.div_mod_to_equations. lia. }
  assert (Hhi : d < DayFromYear (c + 2)).
  { subst c. unfold DayFromYear. Z.div_mod_to_equations. lia. }
  destruct (Z.ltb_spec d (DayFromYear c)).
  - replace (c - 1 + 1) with c by lia. lia.
  - destruct (Z.leb_spec (DayFromYear (c + 1)) d).
    + replace (c + 1 + 1) with (c + 2) by lia. lia.
    + lia.
Qed.

Lemma LeapDays_cases y :
  (LeapDays y = 0 /\ DaysInYear y = 365) \/ (LeapDays y = 1 /\ DaysInYear y = 366).
Proof.
  unfold LeapDays, DaysInYear.
  destruct (y mod 4 =? 0), (y mod 100 =? 0), (y mod 400 =? 0); simpl; lia.
Qed.

Lemma Day_MakeDate day w : 0 <= w < msPerDay -> Day (MakeDate day w) = day.
Proof.
  unfold Day, MakeDate, msPerDay. intros. Z.div_mod_to_equations. lia.
Qed.

Lemma TimeWithinDay_MakeDate day w :
  0 <= w < msPerDay -> TimeWithinDay (MakeDate day w) = w.
Proof.
  unfold TimeWithinDay, MakeDate, msPerDay. intros. Z.div_mod_to_equations. lia.
Qed.

Ltac leap_cases y :=
  let HL := fresh "HL" in
  let HY := fresh "HDY" in
  destruct (LeapDays_cases y) as [[HL HY] | [HL HY]]; rewrite ?HL, ?HY in *.

Ltac month_cases mn :=
  let H := fresh in
  assert (H : mn = 0 \/ mn = 1 \/ mn = 2 \/ mn = 3 \/ mn = 4 \/ mn = 5 \/ mn = 6
              \/ mn = 7 \/ mn = 8 \/ mn = 9 \/ mn = 10 \/ mn = 11) by lia;
  repeat (destruct H as [H | H]); subst mn.

Lemma MakeDay_in_range y mn dt :
  0 <= mn <= 11 -> MakeDay y mn dt = DayFromYear y + monthStart mn (LeapDays y) + dt - 1.
Proof.
  intros H. unfold MakeDay.
  replace (mn / 12) with 0 by (Z.div_mod_to_equations; lia).
  replace (mn mod 12) with mn by (Z.div_mod_to_equations; lia).
  now rewrite Z.add_0_r.
Qed.

(** Year, month and day of the month read back from a time of day [w] on
    the day that [MakeDay] gives for a date of the calendar. *)
Lemma civil_of_MakeDay y mn dt w :
  0 <= mn <= 11 -> 1 <= dt <= daysInMonth y (mn + 1) -> 0 <= w < msPerDay ->
  let t := MakeDate (MakeDay y mn dt) w in
  YearFromTime t = y /\ MonthFromTime t = mn /\ DateFromTime t = dt.
Proof.
  intros Hmn Hdt Hw t. unfold daysInMonth in Hdt.
  assert (HD : Day t = DayFromYear y + monthStart mn (LeapDays y) + dt - 1).
  { subst t. rewrite Day_MakeDate by assumption. now apply MakeDay_in_range. }
  assert (HY : YearFromTime t = y).
  { unfold YearFromTime. apply YearFromDay_unique.
    rewrite DayFromYear_succ, HD.
    leap_cases y; month_cases mn; unfold monthStart; simpl in *; lia. }
  assert (HW : DayWithinYear t = monthStart mn (LeapDays y) + dt - 1).
  { unfold DayWithinYear. rewrite HY, HD. lia. }
  assert (HM : MonthFromTime t = mn).
  { unfold MonthFromTime, InLeapYear. rewrite HY, HW.
    leap_cases y; month_cases mn; simpl in Hdt; unfold monthStart; simpl;
      repeat match goal with |- context [?a <? ?b] => destruct (Z.ltb_spec a b); try lia end. }
  split; [exact HY|]. split; [exact HM|].
  unfold DateFromTime, InLeapYear. rewrite HM, HY, HW. lia.
Qed.

Lemma digit_cases k :
  0 <= k <= 9 ->
  k = 0 \/ k = 1 \/ k = 2 \/ k = 3 \/ k = 4 \/ k = 5 \/ k = 6 \/ k = 7 \/ k = 8 \/ k = 9.
Proof. lia. Qed.

Ltac each_digit k H :=
  let C := fresh in
  pose proof (digit_cases k H) as C;
  repeat (destruct C as [C | C]); subst k.

Lemma decimalDigit_digitChar k : 0 <= k <= 9 -> decimalDigit (digitChar k) = Some k.
Proof. intros H. each_digit k H; reflexivity. Qed.

Lemma digitChar_not_T k : 0 <= k <= 9 -> Ascii.eqb (digitChar k) "T" = false.
Proof. intros H. each_digit k H; reflexivity. Qed.

Lemma isoFields_dateText y m d :
  0 <= y <= 9999 -> 0 <= m <= 99 -> 0 <= d <= 99 ->
  isoFields (dateText y m d) = Some (y, m, d).
Proof.
  intros Hy Hm Hd. unfold dateText, isoYear.
  replace ((0 <=? y) && (y <=? 9999)) with true by (symmetry; apply andb_true_iff; lia).
  unfold pad4, pad3, pad2. cbv [String.append]; cbn [isoFields].
  rewrite !decimalDigit_digitChar by (Z.div_mod_to_equations; lia).
  do 3 f_equal; Z.div_mod_to_equations; lia.
Qed.

Lemma splitHead_dateText y m d rest :
  -999999 <= y <= 999999 -> 0 <= m <= 99 -> 0 <= d <= 99 ->
  splitHead "T" (dateText y m d ++ String "T" rest) = dateText y m d.
Proof.
  intros Hy Hm Hd. unfold dateText, isoYear.
  destruct ((0 <=? y) && (y <=? 9999)) eqn:E4; [|destruct (Z.ltb_spec y 0)];
    unfold pad6, pad4, pad3, pad2; cbv [String.append]; cbn [splitHead];
    rewrite ?digitChar_not_T by (Z.div_mod_to_equations; lia);
    change (Ascii.eqb "-" "T") with false; change (Ascii.eqb "+" "T") with false;
    change (Ascii.eqb "T" "T") with true; cbv iota; reflexivity.
Qed.

Lemma monthStart_bounds mn leap :
  0 <= leap <= 1 -> 0 <= monthStart mn leap <= 335.
Proof.
  intros H. unfold monthStart.
  repeat match goal with |- context [?a =? ?b] => destruct (a =? b) end; lia.
Qed.

Lemma LeapDays_bounds y : 0 <= LeapDays y <= 1.
Proof. destruct (LeapDays_cases y) as [[-> _] | [-> _]]; lia. Qed.

Lemma daysInMonth_bounds y m : 28 <= daysInMonth y m <= 31.
Proof.
  unfold daysInMonth. pose proof (LeapDays_bounds y).
  destruct (m =? 2); [lia|]. destruct ((m =? 4) || (m =? 6) || (m =? 9) || (m =? 11)); lia.
Qed.

Lemma MakeDay_normalize y m d : MakeDay y m d = MakeDay (y + m / 12) (m mod 12) d.
Proof.
  unfold MakeDay.
  replace (m mod 12 / 12) with 0 by (Z.div_mod_to_equations; lia).
  replace ((m mod 12) mod 12) with (m mod 12) by (Z.div_mod_to_equations; lia).
  now rewrite Z.add_0_r.
Qed.

(** A day of the month beyond the month's last day lands in the month
    after it. *)
Lemma MakeDay_overflow y mn d :
  0 <= mn <= 11 -> daysInMonth y (mn + 1) < d <= 31 ->
  mn <= 10 /\ MakeDay y mn d = MakeDay y (mn + 1) (d - daysInMonth y (mn + 1))
  /\ 1 <= d - daysInMonth y (mn + 1) <= daysInMonth y (mn + 2).
Proof.
  intros Hmn Hd. pose proof (daysInMonth_bounds y (mn + 2)) as Hb.
  unfold daysInMonth in Hd.
  assert (mn <= 10) by (month_cases mn; simpl in Hd; lia).
  split; [assumption|]. split.
  - rewrite !MakeDay_in_range by lia. unfold daysInMonth.
    leap_cases y; month_cases mn; unfold monthStart; simpl in *; lia.
  - unfold daysInMonth at 1 2. pose proof (LeapDays_bounds y).
    month_cases mn; simpl in *; lia.
Qed.

Lemma DayFromYear_bounds y :
  0 <= y <= 270000 -> -720000 <= DayFromYear y <= 98000000.
Proof. intros H. unfold DayFromYear. Z.div_mod_to_equations. lia. Qed.

Lemma TimeClip_day day :
  -720000 <= day <= 99000000 -> TimeClip (MakeDate day 0) = Some (MakeDate day 0).
Proof.
  intros H. unfold TimeClip, MakeDate, msPerDay.
  destruct (Z.ltb_spec 8640000000000000 (Z.abs (day * 86400000 + 0))); [lia | reflexivity].
Qed.

Lemma isoDate_civil y mn d :
  0 <= mn <= 11 -> 1 <= d <= daysInMonth y (mn + 1) ->
  isoDate (MakeDate (MakeDay y mn d) 0) = dateText y (mn + 1) d.
Proof.
  intros Hmn Hd.
  destruct (civil_of_MakeDay y mn d 0 Hmn Hd) as (HY & HM & HD); [unfold msPerDay; lia|].
  unfold isoDate, dateText. now rewrite HY, HM, HD.
Qed.

Section FixedOffset.
Variable h : Host.
Variable off : Z.
Hypothesis Htz : fixedOffset h off.
Hypothesis Hoff : 0 <= off < msPerDay.

Lemma LocalTime_fixed t : LocalTime h t = t + off.
Proof using Htz. unfold LocalTime. now rewrite Htz. Qed.

Lemma UTC_fixed t : UTC h t = t - off.
Proof using Htz. unfold UTC. now rewrite Htz. Qed.

Lemma construct_dateText y m d :
  0 <= y <= 9999 -> validDate y m d ->
  construct h (VString (dateText y m d)) = Some (MakeDate (MakeDay y (m - 1) d) 0).
Proof using Type.
  intros Hy [Hm Hd]. pose proof (daysInMonth_bounds y m).
  unfold construct, parse. rewrite isoFields_dateText by lia.
  replace ((1 <=? m) && (m <=? 12) && (1 <=? d) && (d <=? daysInMonth y m)) with true
    by (symmetry; rewrite !andb_true_iff; lia).
  apply TimeClip_day. rewrite MakeDay_in_range by lia.
  pose proof (DayFromYear_bounds y). pose proof (monthStart_bounds (m - 1) (LeapDays y) (LeapDays_bounds y)).
  lia.
Qed.

Lemma getMonth_civil y mn d :
  0 <= mn <= 11 -> 1 <= d <= daysInMonth y (mn + 1) ->
  getMonth h (Some (MakeDate (MakeDay y mn d) 0)) = Some mn.
Proof using Htz Hoff.
  intros Hmn Hd. unfold getMonth. rewrite LocalTime_fixed.
  replace (MakeDate (MakeDay y mn d) 0 + off) with (MakeDate (MakeDay y mn d) off)
    by (unfold MakeDate; lia).
  now destruct (civil_of_MakeDay y mn d off Hmn Hd Hoff) as (_ & -> & _).
Qed.

Lemma setMonth_civil y mn d k :
  0 <= mn <= 11 -> 1 <= d <= daysInMonth y (mn + 1) ->
  setMonth h (Some (MakeDate (MakeDay y mn d) 0)) (Some k)
  = TimeClip (MakeDate (MakeDay y k d) 0).
Proof using Htz Hoff.
  intros Hmn Hd. unfold setMonth. cbv zeta. rewrite UTC_fixed, !LocalTime_fixed.
  replace (MakeDate (MakeDay y mn d) 0 + off) with (MakeDate (MakeDay y mn d) off)
    by (unfold MakeDate; lia).
  destruct (civil_of_MakeDay y mn d off Hmn Hd Hoff) as (-> & _ & ->).
  rewrite TimeWithinDay_MakeDate by assumption.
  f_equal. unfold MakeDate. lia.
Qed.

(** What [calculateRenewalDate] does with a calendar date and a positive
    number of months. *)
Lemma calculateRenewalDate_rolls y m d vm n :
  0 <= y <= 9999 -> validDate y m d ->
  truthy vm = true -> parseInt vm = Some n -> 0 < n <= 3000000 ->
  App.calculateRenewalDate h (VString (dateText y m d)) vm
  = Normal (showDate (addMonthsRolling y m d n)).
Proof using Htz Hoff.
  intros Hy [Hm Hd] Hvm Hn Hpos.
  assert (Ht : truthy (VString (dateText y m d)) = true).
  { unfold dateText, isoYear.
    replace ((0 <=? y) && (y <=? 9999)) with true by (symmetry; apply andb_true_iff; lia).
    reflexivity. }
  unfold App.calculateRenewalDate. rewrite Ht, Hvm. cbn [negb orb].
  rewrite construct_dateText by (assumption || (split; assumption)).
  assert (Hd' : 1 <= d <= daysInMonth y (m - 1 + 1)) by (now replace (m - 1 + 1) with m by lia).
  rewrite getMonth_civil, Hn by (assumption || lia). cbn [numAdd].
  rewrite setMonth_civil by (assumption || lia).
  rewrite MakeDay_normalize.
  unfold addMonthsRolling.
  set (k := m - 1 + n). set (ty := y + k / 12). set (mn := k mod 12).
  assert (Hmn : 0 <= mn <= 11) by (subst mn; Z.div_mod_to_equations; lia).
  assert (Hty : 0 <= ty <= 260001) by (subst ty k; Z.div_mod_to_equations; lia).
  pose proof (daysInMonth_bounds y m) as Hb.
  pose proof (DayFromYear_bounds ty) as Hdf.
  pose proof (LeapDays_bounds ty) as Hl.
  destruct (Z.leb_spec d (daysInMonth ty (mn + 1))) as [Hfit | Hover].
  - rewrite TimeClip_day.
    2:{ rewrite MakeDay_in_range by lia.
        pose proof (monthStart_bounds mn (LeapDays ty) Hl). lia. }
    unfold toISOString. rewrite isoDate_civil by lia.
    cbn [showDate]. f_equal. apply splitHead_dateText; lia.
  - destruct (MakeDay_overflow ty mn d Hmn) as (Hm10 & -> & Hrest); [lia|].
    replace (mn + 2) with (mn + 1 + 1) in Hrest by lia.
    pose proof (daysInMonth_bounds ty (mn + 1)) as Hb1.
    pose proof (daysInMonth_bounds ty (mn + 1 + 1)) as Hb2.
    rewrite TimeClip_day.
    2:{ rewrite MakeDay_in_range by lia.
        pose proof (monthStart_bounds (mn + 1) (LeapDays ty) Hl). lia. }
    unfold toISOString.
    rewrite isoDate_civil by lia.
    cbn [showDate]. f_equal. apply splitHead_dateText; lia.
Qed.
End FixedOffset.
End DateFacts.
(** ** Renewal dates *)

Module RenewalFacts.
Import JS JSDate App Spec DateFacts.

Lemma isoYear_head y :
  exists c s, isoYear y = String c s /\ Ascii.eqb c "T" = false.
Proof.
  unfold isoYear.
  destruct (Z.leb_spec 0 y); [destruct (Z.leb_spec y 9999)|]; cbn [andb].
  - eexists _, _. split; [reflexivity|].
    apply digitChar_not_T. Z.div_mod_to_equations. lia.
  - destruct (Z.ltb_spec y 0); [lia|]. eexists _, _. split; reflexivity.
  - destruct (Z.ltb_spec y 0); [|lia]. eexists _, _. split; reflexivity.
Qed.

(** The date part of an ISO string is never empty. *)
Lemma splitHead_isoDate_nonempty t rest :
  splitHead "T" (isoDate t ++ rest) <> "".
Proof.
  unfold isoDate. destruct (isoYear_head (YearFromTime t)) as (c & s & -> & Hc).
  cbv [String.append]. cbn [splitHead]. rewrite Hc. discriminate.
Qed.

(** A value that [parseInt] reads as a positive number passes the guard
    of [calculateRenewalDate]. *)
Lemma parseInt_positive_truthy v n : parseInt v = Some n -> 0 < n -> truthy v = true.
Proof.
  intros Hp Hn. destruct v as [| |[|]|z| |s]; try (vm_compute in Hp; discriminate Hp).
  - cbn [truthy]. destruct (Z.eqb_spec z 0) as [->|]; [|reflexivity].
    vm_compute in Hp. injection Hp as <-. lia.
  - destruct s; [vm_compute in Hp; discriminate Hp | reflexivity].
Qed.

Lemma addMonths_agree_when_day_fits y m d n :
  d <= daysInMonth (y + (m - 1 + n) / 12) ((m - 1 + n) mod 12 + 1) ->
  addMonthsRolling y m d n = addMonthsClamped y m d n.
Proof.
  intros H. unfold addMonthsRolling, addMonthsClamped. cbv zeta.
  destruct (Z.leb_spec d (daysInMonth (y + (m - 1 + n) / 12) ((m - 1 + n) mod 12 + 1))); [|lia].
  now rewrite Z.min_l by assumption.
Qed.

(** West of UTC the local calendar day of a parsed date is the day
    before, and the months are added to that day: one month after the
    first of March comes out as the thirtieth of March.  This is why the
    statements below are about zones at or east of UTC. *)
Example calculateRenewalDate_west_of_UTC :
  calculateRenewalDate west5 (VString "2024-03-01") (VString "1") = Normal "2024-03-30".
Proof. vm_compute. reflexivity. Qed.

End RenewalFacts.

(** C1 (as stated): adding one month to 2024-01-31 does not give the
    clamped date 2024-02-29 that the claim names. *)
Lemma C1_no_end_of_month_clamping :
  Spec.showDate (Spec.addMonthsClamped 2024 1 31 1) = "2024-02-29"
  /\ App.calculateRenewalDate Spec.ist (JS.VString "2024-01-31") (JS.VNumber 1)
     <> JS.Normal "2024-02-29".
Proof. split; [reflexivity | vm_compute; discriminate]. Qed.

(** C1 (amended): in a time zone at a constant offset at or east of UTC,
    for an activation date that is a calendar date of the years 0 to 9999
    and a positive number of months (up to 3,000,000), [calculateRenewalDate]
    returns the date obtained by adding that many whole months: the day of
    the month is preserved when the target month has it, and otherwise the
    days beyond the target month's end are carried into the following
    month.  In particular ("2024-01-31", 1) gives "2024-03-02" and
    ("2024-03-15", 12) gives "2025-03-15". *)
Theorem C1_calculateRenewalDate_adds_months
  (h : JS.Host) (off y m d : Z) (validityMonths : JS.value) (n : Z)
  (Hzone : Spec.fixedOffset h off) (Heast : 0 <= off < JSDate.msPerDay)
  (Hyear : 0 <= y <= 9999) (Hdate : Spec.validDate y m d)
  (Hmonths : JS.parseInt validityMonths = Some n) (Hpositive : 0 < n <= 3000000) :
  App.calculateRenewalDate h (JS.VString (Spec.dateText y m d)) validityMonths
  = JS.Normal (Spec.showDate (Spec.addMonthsRolling y m d n))
  /\ (d <= JSDate.daysInMonth (y + (m - 1 + n) / 12) ((m - 1 + n) mod 12 + 1) ->
      Spec.addMonthsRolling y m d n = (y + (m - 1 + n) / 12, (m - 1 + n) mod 12 + 1, d))
  /\ App.calculateRenewalDate h (JS.VString "2024-01-31") (JS.VNumber 1)
     = JS.Normal "2024-03-02"
  /\ App.calculateRenewalDate h (JS.VString "2024-03-15") (JS.VNumber 12)
     = JS.Normal "2025-03-15".
Proof.
  split; [|split; [|split]].
  - apply (DateFacts.calculateRenewalDate_rolls h off); try assumption.
    apply (RenewalFacts.parseInt_positive_truthy _ n); [assumption | lia].
  - intros Hfit. unfold Spec.addMonthsRolling. cbv zeta.
    destruct (Z.leb_spec d (JSDate.daysInMonth (y + (m - 1 + n) / 12) ((m - 1 + n) mod 12 + 1)));
      [reflexivity | lia].
  - change (JS.VString "2024-01-31") with (JS.VString (Spec.dateText 2024 1 31)).
    rewrite (DateFacts.calculateRenewalDate_rolls h off Hzone Heast 2024 1 31 (JS.VNumber 1) 1);
      [reflexivity | lia | split; [lia | vm_compute; split; discriminate]
      | reflexivity | vm_compute; reflexivity | lia].
  - change (JS.VString "2024-03-15") with (JS.VString (Spec.dateText 2024 3 15)).
    rewrite (DateFacts.calculateRenewalDate_rolls h off Hzone Heast 2024 3 15 (JS.VNumber 12) 12);
      [reflexivity | lia | split; [lia | vm_compute; split; discriminate]
      | reflexivity | vm_compute; reflexivity | lia].
Qed.

Lemma C1_calculateRenewalDate_adds_months_witness :
  App.calculateRenewalDate Spec.ist (JS.VString (Spec.dateText 2024 8 31)) (JS.VString "6")
  = JS.Normal (Spec.showDate (Spec.addMonthsRolling 2024 8 31 6))
  /\ (31 <= JSDate.daysInMonth (2024 + (8 - 1 + 6) / 12) ((8 - 1 + 6) mod 12 + 1) ->
      Spec.addMonthsRolling 2024 8 31 6 = (2024 + (8 - 1 + 6) / 12, (8 - 1 + 6) mod 12 + 1, 31))
  /\ App.calculateRenewalDate Spec.ist (JS.VString "2024-01-31") (JS.VNumber 1)
     = JS.Normal "2024-03-02"
  /\ App.calculateRenewalDate Spec.ist (JS.VString "2024-03-15") (JS.VNumber 12)
     = JS.Normal "2025-03-15".
Proof.
  apply (C1_calculateRenewalDate_adds_months Spec.ist 19800000 2024 8 31 (JS.VString "6") 6).
  - intros t u. reflexivity.
  - unfold JSDate.msPerDay. lia.
  - lia.
  - split; [lia | vm_compute; split; discriminate].
  - vm_compute. reflexivity.
  - lia.
Defined.

(** C4 (as stated): a negative number of months, the text "0" typed in
    the form and the text "1.5" are not positive integers, and yet the
    result is a date, not the empty text. *)
Lemma C4_non_positive_months_accepted :
  App.calculateRenewalDate Spec.ist (JS.VString "2024-03-15") (JS.VNumber (-3))
  = JS.Normal "2023-12-15"
  /\ App.calculateRenewalDate Spec.ist (JS.VString "2024-03-15") (JS.VString "0")
     = JS.Normal "2024-03-15"
  /\ App.calculateRenewalDate Spec.ist (JS.VString "2024-03-15") (JS.VString "1.5")
     = JS.Normal "2024-04-15"
  /\ App.calculateRenewalDate Spec.ist (JS.VString "2024-03-15") (JS.VNumber (-3))
     <> JS.Normal "".
Proof. repeat split; vm_compute; try reflexivity; discriminate. Qed.

(** C4 (amended): [calculateRenewalDate] returns the empty text exactly
    when the activation date or [validityMonths] is absent or empty in
    the sense of the language: [undefined], [null], the empty text, the
    number 0, [NaN] or [false]. *)
Theorem C4_calculateRenewalDate_empty_iff
  (h : JS.Host) (activationDate validityMonths : JS.value) :
  App.calculateRenewalDate h activationDate validityMonths = JS.Normal ""
  <-> (JS.truthy activationDate = false \/ JS.truthy validityMonths = false).
Proof.
  unfold App.calculateRenewalDate.
  destruct (JS.truthy activationDate), (JS.truthy validityMonths); cbn [negb orb];
    try (split; [intros _; auto | reflexivity]).
  split.
  - destruct (JSDate.setMonth _ _ _) as [t|]; cbn [JSDate.toISOString]; [|discriminate].
    intros E. injection E as E. now apply RenewalFacts.splitHead_isoDate_nonempty in E.
  - intros [E | E]; discriminate E.
Qed.

(** ** Expiry *)

(** C7: [isExpired] is true if and only if the renewal date is present
    and its time value is strictly earlier than [now]; a renewal date
    equal to [now] is not expired, and an absent one is not expired. *)
Theorem C7_isExpired_iff (h : JS.Host) (now : Z) (renewalDate : JS.value) :
  (App.isExpired h now renewalDate = true
   <-> JS.truthy renewalDate = true
       /\ exists t, JSDate.construct h renewalDate = Some t /\ t < now)
  /\ (JSDate.construct h renewalDate = Some now -> App.isExpired h now renewalDate = false)
  /\ (JS.truthy renewalDate = false -> App.isExpired h now renewalDate = false).
Proof.
  unfold App.isExpired. split; [|split].
  - destruct (JS.truthy renewalDate); cbn [negb].
    + destruct (JSDate.construct h renewalDate) as [t|].
      * rewrite Z.ltb_lt. split.
        -- intros Hlt. split; [reflexivity|]. exists t. now split.
        -- intros (_ & t' & E & Hlt). now injection E as ->.
      * split; [discriminate|]. intros (_ & t' & E & _). discriminate E.
    + split; [discriminate|]. intros (E & _). discriminate E.
  - intros ->. destruct (JS.truthy renewalDate); cbn [negb]; [|reflexivity].
    apply Z.ltb_irrefl.
  - intros ->. reflexivity.
Qed.

Lemma C7_isExpired_iff_witness :
  (App.isExpired Spec.ist Samples.today (JS.VString "2024-11-02") = true
   <-> JS.truthy (JS.VString "2024-11-02") = true
       /\ exists t, JSDate.construct Spec.ist (JS.VString "2024-11-02") = Some t
                    /\ t < Samples.today)
  /\ App.isExpired Spec.ist Samples.today (JS.VString "2024-11-02") = false
  /\ App.isExpired Spec.ist Samples.today (JS.VString "") = false.
Proof.
  pose proof (C7_isExpired_iff Spec.ist Samples.today (JS.VString "2024-11-02")) as (Hiff & Hnow & _).
  pose proof (C7_isExpired_iff Spec.ist Samples.today (JS.VString "")) as (_ & _ & Habsent).
  split; [exact Hiff|]. split.
  - apply Hnow. vm_compute. reflexivity.
  - apply Habsent. reflexivity.
Defined.

(** C6 (as stated): a row without [validityPeriod] that carries a renewal
    date in the past, as an imported sheet can contain, is listed among
    the expired products. *)
Lemma C6_expired_without_validityPeriod :
  JS.get Samples.legacyRow "validityPeriod" = JS.VUndefined
  /\ In Samples.legacyRow
        (App.expiredProducts Spec.ist Samples.today (Spec.withProducts [Samples.legacyRow])).
Proof. split; [reflexivity | vm_compute; left; reflexivity]. Qed.

(** C6 (amended): a record whose [renewalDate] is empty is never included
    in [expiredProducts], whatever the evaluation time; the listing looks
    at the stored renewal date only, so that a record is listed exactly
    when it is in the set and [isExpired] holds of its renewal date. *)
Theorem C6_expiredProducts_by_renewalDate
  (h : JS.Host) (now : Z) (st : App.state) (p : JS.object) :
  (JS.truthy (JS.get p "renewalDate") = false -> ~ In p (App.expiredProducts h now st))
  /\ (In p (App.expiredProducts h now st)
      <-> In p (App.products st) /\ App.isExpired h now (JS.get p "renewalDate") = true).
Proof.
  assert (Hin : In p (App.expiredProducts h now st)
                <-> In p (App.products st) /\ App.isExpired h now (JS.get p "renewalDate") = true).
  { unfold App.expiredProducts. apply List.filter_In. }
  split; [|exact Hin].
  intros Hempty Hp. apply Hin in Hp as [_ Hp].
  unfold App.isExpired in Hp. rewrite Hempty in Hp. discriminate Hp.
Qed.

Lemma C6_expiredProducts_by_renewalDate_witness :
  JS.truthy (JS.get Samples.undatedRow "renewalDate") = false
  /\ ~ In Samples.undatedRow
          (App.expiredProducts Spec.ist Samples.today (Spec.withProducts [Samples.undatedRow])).
Proof.
  split; [reflexivity|].
  apply (C6_expiredProducts_by_renewalDate Spec.ist Samples.today
           (Spec.withProducts [Samples.undatedRow]) Samples.undatedRow).
  reflexivity.
Defined.

(** ** The record set: import, update, delete *)

(** C2 (as stated): a row imported with an activation date and a validity
    period, and with neither renewal date nor identifier, is stored
    without a renewal date and without an identifier. *)
Lemma C2_import_derives_nothing :
  JS.truthy (JS.get Samples.bareRow "activationDate") = true
  /\ JS.truthy (JS.get Samples.bareRow "validityPeriod") = true
  /\ exists st',
       App.importFromExcel (Some [Samples.bareRow]) App.initialState = JS.Normal st'
       /\ App.products st' = [Samples.bareRow]
       /\ Forall (fun p => JS.get p "renewalDate" = JS.VUndefined
                           /\ JS.get p "id" = JS.VUndefined) (App.products st').
Proof.
  split; [reflexivity|]. split; [reflexivity|].
  eexists. split; [reflexivity|]. split; [reflexivity|].
  constructor; [split; reflexivity | constructor].
Qed.

(** C2 (amended): the bulk import replaces the record set by the imported
    rows exactly as they are: an existing [id] is preserved like every
    other field, no [id] is assigned where one is missing, and no renewal
    date is computed. *)
Theorem C2_import_stores_rows_unchanged (data : list JS.object) (st : App.state) :
  exists st',
    App.importFromExcel (Some data) st = JS.Normal st'
    /\ App.products st' = data.
Proof. eexists. split; reflexivity. Qed.

Module StoreFacts.
Import JS App Spec.

Lemma map_unchanged {A} (f : A -> A) (l : list A) :
  (forall x, In x l -> f x = x) -> List.map f l = l.
Proof.
  induction l as [|x l IH]; intros H; [reflexivity|].
  cbn [List.map]. rewrite (H x) by (left; reflexivity).
  f_equal. apply IH. intros y Hy. apply H. now right.
Qed.

Lemma filter_unchanged {A} (f : A -> bool) (l : list A) :
  (forall x, In x l -> f x = true) -> List.filter f l = l.
Proof.
  induction l as [|x l IH]; intros H; [reflexivity|].
  cbn [List.filter]. rewrite (H x) by (left; reflexivity).
  f_equal. apply IH. intros y Hy. apply H. now right.
Qed.

Lemma filter_sublist {A} (f : A -> bool) (l : list A) :
  sublist (List.filter f l) l.
Proof.
  induction l as [|x l IH]; [constructor|].
  cbn [List.filter]. destruct (f x); now constructor.
Qed.

End StoreFacts.

(** C3 (as stated): updating or deleting under an identifier that no
    record has does not fail with [NotFoundError]; both calls return. *)
Lemma C3_no_NotFoundError :
  App.saveProduct 1700000000500 Samples.stranger
    (App.setEditingProduct (Some Samples.stranger) (Spec.withProducts [Samples.stored]))
  <> JS.Throw "NotFoundError"
  /\ App.deleteProduct true (JS.VNumber 42) (Spec.withProducts [Samples.stored])
     <> JS.Throw "NotFoundError".
Proof. split; discriminate. Qed.

(** C3 (amended): for an identifier that no record of the set has, update
    and delete both return without an error, and the record set after the
    call is the record set before it. *)
Theorem C3_absent_id_changes_nothing
  (now : Z) (input : JS.object) (st : App.state) (id : JS.value)
  (Habsent : forall p, In p (App.products st) -> JS.strictEq (JS.get p "id") id = false) :
  (forall editing, App.editingProduct st = Some editing -> JS.get editing "id" = id ->
     exists st', App.saveProduct now input st = JS.Normal st'
                 /\ App.products st' = App.products st)
  /\ (forall confirmed,
        exists st', App.deleteProduct confirmed id st = JS.Normal st'
                    /\ App.products st' = App.products st).
Proof.
  split.
  - intros editing Hed Hid. unfold App.saveProduct. rewrite Hed, Hid.
    eexists. split; [reflexivity|]. cbn.
    apply StoreFacts.map_unchanged. intros p Hp. now rewrite (Habsent p Hp).
  - intros [|]; unfold App.deleteProduct; eexists; (split; [reflexivity|]); [|reflexivity].
    cbn. apply StoreFacts.filter_unchanged. intros p Hp. now rewrite (Habsent p Hp).
Qed.

Lemma C3_absent_id_changes_nothing_witness :
  (forall p, In p [Samples.stored] -> JS.strictEq (JS.get p "id") (JS.VNumber 42) = false)
  /\ (exists st',
        App.saveProduct 1700000000500 Samples.stranger
          (App.setEditingProduct (Some Samples.stranger) (Spec.withProducts [Samples.stored]))
        = JS.Normal st'
        /\ App.products st' = [Samples.stored])
  /\ (exists st',
        App.deleteProduct true (JS.VNumber 42) (Spec.withProducts [Samples.stored]) = JS.Normal st'
        /\ App.products st' = [Samples.stored]).
Proof.
  assert (Habsent : forall p, In p [Samples.stored] ->
                              JS.strictEq (JS.get p "id") (JS.VNumber 42) = false).
  { intros p [<- | []]. reflexivity. }
  split; [exact Habsent|].
  destruct (C3_absent_id_changes_nothing 1700000000500 Samples.stranger
              (App.setEditingProduct (Some Samples.stranger) (Spec.withProducts [Samples.stored]))
              (JS.VNumber 42) Habsent) as [Hupdate _].
  destruct (C3_absent_id_changes_nothing 1700000000500 Samples.stranger
              (Spec.withProducts [Samples.stored]) (JS.VNumber 42) Habsent) as [_ Hdelete].
  split.
  - apply (Hupdate Samples.stranger); reflexivity.
  - apply (Hdelete true).
Defined.

(** ** Persistence *)

Module PersistFacts.
Import JS App Spec.

(** The actions after which [products] is a new array: a submitted form
    that passes validation, a confirmed deletion, an import with a file. *)
Lemma replaces_products ev st st' :
  handle ev st = Normal st' ->
  (productsId st' <> productsId st
   <-> match ev with
       | Submit _ formData => snd (validateForm formData) = true
       | Delete confirmed _ => confirmed = true
       | Import file => file <> None
       end).
Proof.
  destruct ev as [now formData | confirmed id | file]; cbn [handle].
  - unfold handleSubmit. destruct (validateForm formData) as [errs ok]. cbn [snd].
    destruct ok.
    + unfold saveProduct. intros E. injection E as <-.
      destruct (editingProduct st); cbn; split; (reflexivity || lia).
    + intros E. injection E as <-. split; [intros H; now contradiction H | discriminate].
  - unfold deleteProduct. destruct confirmed; intros E; injection E as <-.
    + cbn. split; (reflexivity || lia).
    + split; [intros H; now contradiction H | discriminate].
  - unfold importFromExcel. destruct file; intros E; injection E as <-.
    + cbn. split; (discriminate || lia).
    + split; intros H; now contradiction H.
Qed.

End PersistFacts.

(** C5 (as stated): deleting the only record leaves the set empty, and
    nothing is written: the store still holds the snapshot with that
    record. *)
Lemma C5_no_save_of_empty_set :
  App.products
    (fst (App.step (App.Delete true (JS.VNumber 1700000000000))
            (Spec.withProducts [Samples.stored], [[Samples.stored]]))) = []
  /\ snd (App.step (App.Delete true (JS.VNumber 1700000000000))
            (Spec.withProducts [Samples.stored], [[Samples.stored]]))
     = [[Samples.stored]].
Proof. split; vm_compute; reflexivity. Qed.

(** C5 (amended): after every user action whose handler replaces the
    record set (create, update, confirmed delete, import), the resulting
    record set is written to the store when it is not empty; when it is
    empty nothing is written and the store keeps what it held. *)
Theorem C5_save_after_mutation
  (ev : App.event) (st st' : App.state) (ls ls' : App.storage)
  (Hstep : App.step ev (st, ls) = (st', ls'))
  (Hmutation : App.productsId st' <> App.productsId st) :
  (App.products st' <> [] -> ls' = App.products st' :: ls)
  /\ (App.products st' = [] -> ls' = ls).
Proof.
  unfold App.step in Hstep.
  destruct (App.handle ev st) as [st1 | e].
  - destruct (Nat.eqb_spec (App.productsId st1) (App.productsId st)) as [E | _].
    + injection Hstep as <- <-. contradiction.
    + injection Hstep as <- <-. unfold App.persistEffect.
      destruct (App.products st1) as [|p l]; cbn.
      * split; [intros H; now contradiction H | reflexivity].
      * split; [reflexivity | discriminate].
  - injection Hstep as <- <-. contradiction.
Qed.

(** What it means for the user: the deleted record is back after a reload. *)
Example deleted_last_record_returns :
  App.products
    (fst (App.mount
            (snd (App.step (App.Delete true (JS.VNumber 1700000000000))
                    (Spec.withProducts [Samples.stored], [[Samples.stored]])))))
  = [Samples.stored].
Proof. vm_compute. reflexivity. Qed.

Lemma C5_save_after_mutation_witness :
  App.step (App.Import (Some [Samples.bareRow])) (App.initialState, [])
  = (App.setProducts [Samples.bareRow] App.initialState, [[Samples.bareRow]])
  /\ App.productsId (App.setProducts [Samples.bareRow] App.initialState)
     <> App.productsId App.initialState
  /\ ([Samples.bareRow] <> [] -> [[Samples.bareRow]] = [[Samples.bareRow]])
  /\ ([Samples.bareRow] = [] -> [[Samples.bareRow]] = @nil (list JS.object)).
Proof.
  assert (Hstep : App.step (App.Import (Some [Samples.bareRow])) (App.initialState, [])
                  = (App.setProducts [Samples.bareRow] App.initialState, [[Samples.bareRow]]))
    by reflexivity.
  assert (Hmutation : App.productsId (App.setProducts [Samples.bareRow] App.initialState)
                      <> App.productsId App.initialState) by (cbn; lia).
  split; [exact Hstep|]. split; [exact Hmutation|].
  exact (C5_save_after_mutation (App.Import (Some [Samples.bareRow])) App.initialState
           (App.setProducts [Samples.bareRow] App.initialState) [] [[Samples.bareRow]]
           Hstep Hmutation).
Defined.

(** ** Validation *)

Module FormFacts.
Import JS App Spec.

Lemma requireField_keys formData key message newErrors :
  List.map fst (requireField formData key message newErrors)
  = (List.map fst newErrors
     ++ List.filter (fun k => negb (truthy (get formData k))) [key])%list.
Proof.
  unfold requireField. cbn [List.filter].
  destruct (negb (truthy (get formData key))).
  - now rewrite List.map_app.
  - now rewrite List.app_nil_r.
Qed.

Lemma validateForm_keys formData :
  List.map fst (fst (validateForm formData))
  = List.filter (fun k => negb (truthy (get formData k))) validatedFields.
Proof.
  unfold validateForm. cbn [fst]. rewrite !requireField_keys.
  cbn [List.map]. rewrite List.app_nil_l, <- !List.filter_app. reflexivity.
Qed.

Lemma validateForm_flag formData :
  snd (validateForm formData) = true <-> fst (validateForm formData) = [].
Proof.
  unfold validateForm. cbn [fst snd].
  match goal with |- (length ?l =? 0)%nat = true <-> _ => destruct l end; cbn; split;
    congruence.
Qed.

Lemma validatedFields_required k : In k validatedFields <-> In k requiredFields.
Proof. unfold validatedFields, requiredFields. cbn [In]. tauto. Qed.

End FormFacts.

(** C8: when at least one required field of the form is empty, submitting
    it reports a validation failure: the [errors] object is not empty and
    has an entry for exactly the required fields that are empty; the
    handler leaves the component state, hence the record set and the
    number of records, as it was, and nothing is persisted. *)
Theorem C8_submit_rejects_incomplete_form
  (now : Z) (formData : JS.object) (st : App.state) (ls : App.storage) (field : string)
  (Hrequired : In field Spec.requiredFields)
  (Hempty : JS.truthy (JS.get formData field) = false) :
  exists errs,
    App.handleSubmit now formData st = JS.Normal (st, errs)
    /\ errs <> []
    /\ (forall k, In k (List.map fst errs)
                  <-> In k Spec.requiredFields /\ JS.truthy (JS.get formData k) = false)
    /\ App.step (App.Submit now formData) (st, ls) = (st, ls).
Proof.
  assert (Hkeys : forall k, In k (List.map fst (fst (App.validateForm formData)))
                  <-> In k Spec.requiredFields /\ JS.truthy (JS.get formData k) = false).
  { intros k. rewrite FormFacts.validateForm_keys, List.filter_In,
      FormFacts.validatedFields_required, negb_true_iff. reflexivity. }
  assert (Hne : fst (App.validateForm formData) <> []).
  { intros E. specialize (Hkeys field). rewrite E in Hkeys. cbn in Hkeys.
    apply Hkeys. now split. }
  assert (Hflag : snd (App.validateForm formData) = false).
  { destruct (snd (App.validateForm formData)) eqn:E; [|reflexivity].
    apply FormFacts.validateForm_flag in E. contradiction. }
  assert (Hsubmit : App.handleSubmit now formData st
                    = JS.Normal (st, fst (App.validateForm formData))).
  { unfold App.handleSubmit. destruct (App.validateForm formData) as [errs ok].
    cbn [fst snd] in *. now rewrite Hflag. }
  exists (fst (App.validateForm formData)).
  split; [exact Hsubmit|]. split; [exact Hne|]. split; [exact Hkeys|].
  unfold App.step, App.handle. rewrite Hsubmit. now rewrite Nat.eqb_refl.
Qed.

Lemma C8_submit_rejects_incomplete_form_witness :
  In "endUserName" Spec.requiredFields
  /\ JS.truthy (JS.get Samples.incomplete "endUserName") = false
  /\ exists errs,
       App.handleSubmit 1700000000500 Samples.incomplete (Spec.withProducts [Samples.stored])
       = JS.Normal (Spec.withProducts [Samples.stored], errs)
       /\ errs <> []
       /\ (forall k, In k (List.map fst errs)
                     <-> In k Spec.requiredFields
                         /\ JS.truthy (JS.get Samples.incomplete k) = false)
       /\ App.step (App.Submit 1700000000500 Samples.incomplete)
            (Spec.withProducts [Samples.stored], [[Samples.stored]])
          = (Spec.withProducts [Samples.stored], [[Samples.stored]]).
Proof.
  assert (Hrequired : In "endUserName" Spec.requiredFields) by (cbn; tauto).
  assert (Hempty : JS.truthy (JS.get Samples.incomplete "endUserName") = false) by reflexivity.
  split; [exact Hrequired|]. split; [exact Hempty|].
  exact (C8_submit_rejects_incomplete_form 1700000000500 Samples.incomplete
           (Spec.withProducts [Samples.stored]) [[Samples.stored]] "endUserName"
           Hrequired Hempty).
Defined.

(** ** Search *)

Example search_is_case_insensitive :
  App.filteredProducts
    (App.setSearchTerm "ALP" (Spec.withProducts [Samples.alpha; Samples.beta]))
  = [Samples.alpha].
Proof. vm_compute. reflexivity. Qed.

(** C9: with an empty search term the listing is the whole record set in
    its order; for every term and column the listing is a subsequence of
    the record set (the matching records keep their relative order) and
    contains exactly the records that match. *)
Theorem C9_filteredProducts_keeps_order (st : App.state) :
  App.filteredProducts (App.setSearchTerm "" st) = App.products st
  /\ sublist (App.filteredProducts st) (App.products st)
  /\ (forall p, In p (App.filteredProducts st)
                <-> In p (App.products st)
                    /\ App.matchesSearch (App.searchTerm st) (App.filterColumn st) p = true).
Proof.
  split; [|split].
  - unfold App.filteredProducts. cbn [App.setSearchTerm App.products App.searchTerm App.filterColumn].
    apply StoreFacts.filter_unchanged. intros p _. reflexivity.
  - apply StoreFacts.filter_sublist.
  - intros p. unfold App.filteredProducts. apply List.filter_In.
Qed.

(** ** Industry analytics *)

Module AnalyticsFacts.
Import JS App Spec.

Lemma totalCount_insert_fresh (acc : object) k v :
  acc !! k = None -> totalCount (<[k := v]> acc) = countOf v + totalCount acc.
Proof.
  intros H. unfold totalCount.
  rewrite map_fold_insert_L; [reflexivity | intros; lia | exact H].
Qed.

Lemma totalCount_insert_over (acc : object) k v0 v :
  acc !! k = Some v0 ->
  totalCount (<[k := v]> acc) = countOf v - countOf v0 + totalCount acc.
Proof.
  intros H. rewrite <- insert_delete_eq.
  rewrite totalCount_insert_fresh by apply lookup_delete_eq.
  unfold totalCount at 2.
  rewrite (map_fold_delete_L _ _ k v0 acc); [fold (totalCount (delete k acc)); lia | intros; lia | exact H].
Qed.

Lemma not_inherited_not_proto k : inherited k = false -> String.eqb k "__proto__" = false.
Proof.
  unfold inherited, objectPrototypeKeys. cbn [existsb].
  destruct (String.eqb k "__proto__"); [|reflexivity].
  rewrite !orb_true_r. discriminate.
Qed.

(** One round of the reducer on a key that [Object.prototype] does not
    define adds one to the total and keeps every count a positive number. *)
Lemma countIndustry_counts h acc product :
  inherited (industryKey product) = false -> counted acc ->
  counted (countIndustry h acc product)
  /\ totalCount (countIndustry h acc product) = totalCount acc + 1.
Proof.
  intros Hkey Hacc. unfold countIndustry. fold (industryKey product).
  unfold getAny, setAny. rewrite (not_inherited_not_proto _ Hkey), Hkey.
  destruct (acc !! industryKey product) as [v|] eqn:E.
  - destruct (Hacc _ _ E) as (n & -> & Hn).
    assert (Hv : plus (or_else (VNumber n) (VNumber 0)) (VNumber 1) = VNumber (n + 1)).
    { unfold or_else. cbn [truthy]. destruct (Z.eqb_spec n 0); [lia | reflexivity]. }
    rewrite Hv. split.
    + apply map_Forall_insert_2; [|exact Hacc]. exists (n + 1). split; [reflexivity | lia].
    + rewrite (totalCount_insert_over acc _ (VNumber n)) by exact E. cbn [countOf]. lia.
  - change (plus (or_else VUndefined (VNumber 0)) (VNumber 1)) with (VNumber 1). split.
    + apply map_Forall_insert_2; [|exact Hacc]. exists 1. split; [reflexivity | lia].
    + rewrite totalCount_insert_fresh by exact E. cbn [countOf]. lia.
Qed.

Lemma fold_countIndustry h l : forall acc,
  Forall (fun p => inherited (industryKey p) = false) l -> counted acc ->
  counted (fold_left (countIndustry h) l acc)
  /\ totalCount (fold_left (countIndustry h) l acc) = totalCount acc + Z.of_nat (length l).
Proof.
  induction l as [|p l IH]; intros acc Hl Hacc.
  - split; [exact Hacc | cbn; lia].
  - inversion Hl as [|? ? Hp Hl']; subst.
    destruct (countIndustry_counts h acc p Hp Hacc) as [Hc Ht].
    destruct (IH _ Hl' Hc) as [Hc' Ht'].
    cbn [fold_left]. split; [exact Hc'|]. rewrite Ht', Ht. cbn [length]. lia.
Qed.

(** As long as no category is the name of a property of
    [Object.prototype], every bucket holds a positive number and the
    buckets add up to the number of records; a record with no category is
    counted under "Uncategorized". *)
Lemma industryAnalytics_total h st :
  Forall (fun p => inherited (industryKey p) = false) (products st) ->
  counted (industryAnalytics h st)
  /\ totalCount (industryAnalytics h st) = Z.of_nat (length (products st)).
Proof.
  intros H. unfold industryAnalytics.
  destruct (fold_countIndustry h (products st) ∅ H) as [Hc Ht].
  { apply map_Forall_empty. }
  split; [exact Hc|]. rewrite Ht. unfold totalCount. now rewrite map_fold_empty.
Qed.

Lemma industryKey_missing product :
  truthy (get product "industryCategory") = false -> industryKey product = "Uncategorized".
Proof. intros H. unfold industryKey, or_else. now rewrite H. Qed.

(** Under a key that holds a function the bucket is text, not a number. *)
Example constructor_category_is_text :
  industryAnalytics ist (withProducts [Samples.constructorRow]) !! "constructor"
  = Some (VString "function Object() { [native code] }1").
Proof. vm_compute. reflexivity. Qed.

End AnalyticsFacts.

(** C10 (the code at the failing input): a record whose category is
    [__proto__] is dropped by the reducer; the analytics object stays
    empty, and its counts add up to 0 while there is one record. *)
Theorem C10_proto_category_not_counted (h : JS.Host) :
  App.industryAnalytics h (Spec.withProducts [Samples.protoRow]) = ∅
  /\ Spec.totalCount (App.industryAnalytics h (Spec.withProducts [Samples.protoRow]))
     <> Z.of_nat (length (App.products (Spec.withProducts [Samples.protoRow]))).
Proof.
  assert (E : App.industryAnalytics h (Spec.withProducts [Samples.protoRow]) = ∅) by reflexivity.
  split; [exact E|]. rewrite E. vm_compute. discriminate.
Qed.

(** * Further properties of the component *)

Import JS JSDate App Pages Spec DateFacts.

(** ** Creating, updating and deleting records *)

Module RecordFacts.

Lemma strictEq_eq a b : strictEq a b = true -> a = b.
Proof.
  destruct a as [| |x|x| |x], b as [| |y|y| |y]; cbn [strictEq]; try discriminate;
    try reflexivity.
  - intros H. apply Bool.eqb_prop in H. now subst.
  - intros H. apply Z.eqb_eq in H. now subst.
  - intros H. apply String.eqb_eq in H. now subst.
Qed.

Lemma strictEq_refl_number n : strictEq (VNumber n) (VNumber n) = true.
Proof. cbn. apply Z.eqb_refl. Qed.

Lemma get_spreadWith_same o k v : get (spreadWith o k v) k = v.
Proof. unfold get, spreadWith. now rewrite lookup_insert_eq. Qed.

Lemma get_spreadWith_other o k k' v : k <> k' -> get (spreadWith o k v) k' = get o k'.
Proof. intros H. unfold get, spreadWith. now rewrite lookup_insert_ne. Qed.

Lemma filter_app_one {A} (f : A -> bool) l x :
  List.filter f (l ++ [x]) = (List.filter f l ++ (if f x then [x] else []))%list.
Proof. rewrite List.filter_app. reflexivity. Qed.

Lemma filter_filter_same {A} (f : A -> bool) l :
  List.filter f (List.filter f l) = List.filter f l.
Proof.
  apply StoreFacts.filter_unchanged. intros x Hx. now apply List.filter_In in Hx.
Qed.

End RecordFacts.

(** X1: an update never changes the number of records nor the identifier
    at any position; each record after it is a record from before or the
    submitted data under the edited identifier; the modal is closed. *)
Theorem X1_update_keeps_ids_and_count
  (now : Z) (input : object) (st : state) (editing : object)
  (Hediting : editingProduct st = Some editing) :
  exists st',
    saveProduct now input st = Normal st'
    /\ List.map (fun p => get p "id") (products st')
       = List.map (fun p => get p "id") (products st)
    /\ length (products st') = length (products st)
    /\ (forall p', In p' (products st') ->
          In p' (products st) \/ p' = spreadWith input "id" (get editing "id"))
    /\ editingProduct st' = None /\ showAddModal st' = false.
Proof.
  unfold saveProduct. rewrite Hediting. eexists. split; [reflexivity|].
  cbn [products setProducts setEditingProduct setShowAddModal editingProduct showAddModal].
  split; [|split; [|split; [|split; reflexivity]]].
  - rewrite List.map_map. apply List.map_ext. intros p.
    destruct (strictEq (get p "id") (get editing "id")) eqn:E; [|reflexivity].
    rewrite RecordFacts.get_spreadWith_same. symmetry. now apply RecordFacts.strictEq_eq.
  - apply List.length_map.
  - intros p' Hp'. apply List.in_map_iff in Hp' as (p & <- & Hp).
    destruct (strictEq (get p "id") (get editing "id")); [right; reflexivity | now left].
Qed.

Lemma X1_update_keeps_ids_and_count_witness :
  editingProduct (openEditor Samples.stored (withProducts [Samples.stored])) = Some Samples.stored
  /\ exists st',
       saveProduct 1700000000500 Samples.stranger
         (openEditor Samples.stored (withProducts [Samples.stored])) = Normal st'
       /\ List.map (fun p => get p "id") (products st')
          = List.map (fun p => get p "id")
              (products (openEditor Samples.stored (withProducts [Samples.stored])))
       /\ length (products st')
          = length (products (openEditor Samples.stored (withProducts [Samples.stored])))
       /\ (forall p', In p' (products st') ->
             In p' (products (openEditor Samples.stored (withProducts [Samples.stored])))
             \/ p' = spreadWith Samples.stranger "id" (get Samples.stored "id"))
       /\ editingProduct st' = None /\ showAddModal st' = false.
Proof.
  split; [reflexivity|].
  apply (X1_update_keeps_ids_and_count 1700000000500 Samples.stranger
           (openEditor Samples.stored (withProducts [Samples.stored])) Samples.stored).
  reflexivity.
Defined.

(** X2: after the import of a sheet whose rows have no [id], editing any
    one row and saving overwrites every row with the submitted data: all
    records compare equal to the edited one under [undefined === undefined]. *)
Theorem X2_edit_after_import_without_ids
  (now : Z) (input row : object) (data : list object) (st : state)
  (Hrow : In row data)
  (Hno_ids : forall p, In p data -> get p "id" = VUndefined) :
  exists st1 st2,
    importFromExcel (Some data) st = Normal st1
    /\ saveProduct now input (openEditor row st1) = Normal st2
    /\ products st2 = List.map (fun _ => spreadWith input "id" VUndefined) data.
Proof.
  eexists. eexists. split; [reflexivity|]. split; [reflexivity|].
  cbn [products setProducts setEditingProduct setShowAddModal editingProduct openEditor].
  apply List.map_ext_in. intros p Hp.
  now rewrite (Hno_ids p Hp), (Hno_ids row Hrow).
Qed.

Lemma X2_edit_after_import_without_ids_witness :
  In Samples.bareRow [Samples.bareRow; Samples.legacyRow]
  /\ (forall p, In p [Samples.bareRow; Samples.legacyRow] -> get p "id" = VUndefined)
  /\ exists st1 st2,
       importFromExcel (Some [Samples.bareRow; Samples.legacyRow]) initialState = Normal st1
       /\ saveProduct 1700000000500 Samples.typed (openEditor Samples.bareRow st1) = Normal st2
       /\ products st2
          = List.map (fun _ => spreadWith Samples.typed "id" VUndefined)
              [Samples.bareRow; Samples.legacyRow].
Proof.
  assert (Hrow : In Samples.bareRow [Samples.bareRow; Samples.legacyRow]) by (left; reflexivity).
  assert (Hno_ids : forall p, In p [Samples.bareRow; Samples.legacyRow] ->
                              get p "id" = VUndefined).
  { intros p [<- | [<- | []]]; reflexivity. }
  split; [exact Hrow|]. split; [exact Hno_ids|].
  exact (X2_edit_after_import_without_ids 1700000000500 Samples.typed Samples.bareRow
           [Samples.bareRow; Samples.legacyRow] initialState Hrow Hno_ids).
Defined.

(** X3: opening a record for editing and submitting the form without
    touching it leaves the record set as it was, provided the record has
    an [id] of its own that no other record shares, passes validation,
    and already carries the renewal date that the form's effect derives. *)
Theorem X3_resubmit_unchanged_record
  (h : Host) (now : Z) (record : object) (st : state)
  (Hown : is_Some (record !! "id"))
  (Hunique : forall p, In p (products st) ->
               strictEq (get p "id") (get record "id") = true -> p = record)
  (Hderived : renewalEffect h (initialFormData (openEditor record st)) = Normal record)
  (Hvalid : snd (validateForm record) = true) :
  exists formData st',
    renewalEffect h (initialFormData (openEditor record st)) = Normal formData
    /\ handleSubmit now formData (openEditor record st) = Normal (st', [])
    /\ products st' = products st.
Proof.
  exists record. unfold handleSubmit.
  destruct (validateForm record) as [errs ok]. cbn [snd] in Hvalid.
  subst ok. unfold saveProduct.
  cbn [openEditor editingProduct setShowAddModal setEditingProduct].
  eexists. split; [exact Hderived|]. split; [reflexivity|].
  cbn [products setProducts setEditingProduct setShowAddModal].
  apply StoreFacts.map_unchanged. intros p Hp.
  destruct (strictEq (get p "id") (get record "id")) eqn:E; [|reflexivity].
  rewrite (Hunique p Hp E). destruct Hown as [v Hv].
  unfold spreadWith, get. rewrite Hv. cbn. now apply insert_id.
Qed.

Lemma X3_resubmit_unchanged_record_witness :
  is_Some (Samples.stored !! "id")
  /\ renewalEffect ist (initialFormData (openEditor Samples.stored (withProducts [Samples.stored])))
     = Normal Samples.stored
  /\ snd (validateForm Samples.stored) = true
  /\ exists formData st',
       renewalEffect ist
         (initialFormData (openEditor Samples.stored (withProducts [Samples.stored])))
       = Normal formData
       /\ handleSubmit 1700000000500 formData
            (openEditor Samples.stored (withProducts [Samples.stored]))
          = Normal (st', [])
       /\ products st' = products (withProducts [Samples.stored]).
Proof.
  assert (Hown : is_Some (Samples.stored !! "id"))
    by (exists (VNumber 1700000000000); reflexivity).
  assert (Hderived : renewalEffect ist
                       (initialFormData (openEditor Samples.stored (withProducts [Samples.stored])))
                     = Normal Samples.stored) by (vm_compute; reflexivity).
  assert (Hvalid : snd (validateForm Samples.stored) = true) by reflexivity.
  split; [exact Hown|]. split; [exact Hderived|]. split; [exact Hvalid|].
  apply (X3_resubmit_unchanged_record ist 1700000000500 Samples.stored
           (withProducts [Samples.stored]) Hown); [|exact Hderived|exact Hvalid].
  intros p [<- | []] _. reflexivity.
Defined.

(** X4: a record created at a time whose value is not yet an identifier
    is appended under that identifier, and deleting that identifier gives
    back the record set from before. *)
Theorem X4_create_then_delete
  (now : Z) (input : object) (st : state)
  (Hadding : editingProduct st = None)
  (Hfresh : forall p, In p (products st) -> strictEq (get p "id") (VNumber now) = false) :
  exists st1 st2,
    saveProduct now input st = Normal st1
    /\ products st1 = (products st ++ [spreadWith input "id" (VNumber now)])%list
    /\ deleteProduct true (VNumber now) st1 = Normal st2
    /\ products st2 = products st.
Proof.
  unfold saveProduct. rewrite Hadding. eexists. eexists.
  split; [reflexivity|]. split; [reflexivity|]. split; [reflexivity|].
  cbn [products setProducts setEditingProduct setShowAddModal].
  rewrite RecordFacts.filter_app_one, RecordFacts.get_spreadWith_same, RecordFacts.strictEq_refl_number. cbn [negb].
  rewrite List.app_nil_r. apply StoreFacts.filter_unchanged.
  intros p Hp. now rewrite (Hfresh p Hp).
Qed.

Lemma X4_create_then_delete_witness :
  editingProduct (withProducts [Samples.stored]) = None
  /\ (forall p, In p (products (withProducts [Samples.stored])) ->
        strictEq (get p "id") (VNumber 1700000000500) = false)
  /\ exists st1 st2,
       saveProduct 1700000000500 Samples.typed (withProducts [Samples.stored]) = Normal st1
       /\ products st1
          = (products (withProducts [Samples.stored])
             ++ [spreadWith Samples.typed "id" (VNumber 1700000000500)])%list
       /\ deleteProduct true (VNumber 1700000000500) st1 = Normal st2
       /\ products st2 = products (withProducts [Samples.stored]).
Proof.
  assert (Hfresh : forall p, In p (products (withProducts [Samples.stored])) ->
                             strictEq (get p "id") (VNumber 1700000000500) = false).
  { intros p [<- | []]. reflexivity. }
  split; [reflexivity|]. split; [exact Hfresh|].
  exact (X4_create_then_delete 1700000000500 Samples.typed (withProducts [Samples.stored])
           eq_refl Hfresh).
Defined.

(** X5: two records created in the same millisecond get the same
    identifier, and deleting that identifier removes both of them. *)
Theorem X5_same_millisecond_same_id
  (now : Z) (first second : object) (st : state)
  (Hadding : editingProduct st = None) :
  exists st1 st2 st3,
    saveProduct now first st = Normal st1
    /\ saveProduct now second st1 = Normal st2
    /\ products st2 = (products st ++ [spreadWith first "id" (VNumber now);
                                       spreadWith second "id" (VNumber now)])%list
    /\ deleteProduct true (VNumber now) st2 = Normal st3
    /\ products st3
       = List.filter (fun p => negb (strictEq (get p "id") (VNumber now))) (products st).
Proof.
  unfold saveProduct. rewrite Hadding.
  cbn [editingProduct setProducts setEditingProduct setShowAddModal].
  eexists. eexists. eexists.
  split; [reflexivity|]. split; [reflexivity|].
  cbn [products setProducts setEditingProduct setShowAddModal].
  split; [now rewrite <- List.app_assoc|]. split; [reflexivity|].
  cbn [products editingProduct setProducts setEditingProduct setShowAddModal].
  rewrite !RecordFacts.filter_app_one, !RecordFacts.get_spreadWith_same, RecordFacts.strictEq_refl_number. cbn [negb].
  now rewrite !List.app_nil_r.
Qed.

Lemma X5_same_millisecond_same_id_witness :
  editingProduct initialState = None
  /\ exists st1 st2 st3,
       saveProduct 1700000000500 Samples.typed initialState = Normal st1
       /\ saveProduct 1700000000500 Samples.incomplete st1 = Normal st2
       /\ products st2
          = (products initialState
             ++ [spreadWith Samples.typed "id" (VNumber 1700000000500);
                 spreadWith Samples.incomplete "id" (VNumber 1700000000500)])%list
       /\ deleteProduct true (VNumber 1700000000500) st2 = Normal st3
       /\ products st3
          = List.filter (fun p => negb (strictEq (get p "id") (VNumber 1700000000500)))
              (products initialState).
Proof.
  split; [reflexivity|].
  exact (X5_same_millisecond_same_id 1700000000500 Samples.typed Samples.incomplete
           initialState eq_refl).
Defined.

(** X6: a confirmed deletion removes exactly the records whose [id] is
    strictly equal to the given one and keeps the others in order;
    repeating it removes nothing more; a declined deletion changes
    nothing. *)
Theorem X6_delete_removes_every_match (id : value) (st : state) :
  (exists st',
     deleteProduct true id st = Normal st'
     /\ (forall p, In p (products st')
                   <-> In p (products st) /\ strictEq (get p "id") id = false)
     /\ sublist (products st') (products st)
     /\ deleteProduct true id st' = Normal (setProducts (products st') st'))
  /\ deleteProduct false id st = Normal st.
Proof.
  split; [|reflexivity].
  unfold deleteProduct. eexists. split; [reflexivity|].
  cbn [products setProducts].
  split; [|split].
  - intros p. rewrite List.filter_In, negb_true_iff. reflexivity.
  - apply StoreFacts.filter_sublist.
  - now rewrite RecordFacts.filter_filter_same.
Qed.

(** ** Submitting the form *)

Module SubmitFacts.
Lemma validateForm_passes_iff formData :
  snd (validateForm formData) = true
  <-> forall k, In k requiredFields -> truthy (get formData k) = true.
Proof.
  rewrite FormFacts.validateForm_flag.
  assert (Hk : fst (validateForm formData) = []
               <-> List.map fst (fst (validateForm formData)) = []).
  { destruct (fst (validateForm formData)); cbn; split; congruence. }
  rewrite Hk, FormFacts.validateForm_keys. split.
  - intros E k Hk'. apply FormFacts.validatedFields_required in Hk'.
    destruct (truthy (get formData k)) eqn:T; [reflexivity|].
    assert (In k (List.filter (fun k => negb (truthy (get formData k))) validatedFields)).
    { apply List.filter_In. split; [exact Hk' | now rewrite T]. }
    rewrite E in H. contradiction.
  - intros H. destruct (List.filter _ validatedFields) as [|k l] eqn:E; [reflexivity|].
    assert (Hin : In k (List.filter (fun k => negb (truthy (get formData k))) validatedFields))
      by (rewrite E; now left).
    apply List.filter_In in Hin as [Hin Hf].
    apply FormFacts.validatedFields_required in Hin. rewrite (H k Hin) in Hf. discriminate.
Qed.
End SubmitFacts.

(** X7: the form passes validation exactly when each of the seven
    required fields is non-empty, and then submitting saves it, clears the
    errors and replaces the record set. *)
Theorem X7_complete_form_is_saved (now : Z) (formData : object) (st : state) :
  (snd (validateForm formData) = true
   <-> forall k, In k requiredFields -> truthy (get formData k) = true)
  /\ ((forall k, In k requiredFields -> truthy (get formData k) = true) ->
      exists st',
        saveProduct now formData st = Normal st'
        /\ handleSubmit now formData st = Normal (st', [])
        /\ productsId st' <> productsId st).
Proof.
  split; [apply SubmitFacts.validateForm_passes_iff|].
  intros H. apply SubmitFacts.validateForm_passes_iff in H.
  unfold handleSubmit. destruct (validateForm formData) as [errs ok]. cbn [snd] in H. subst ok.
  unfold saveProduct. eexists. split; [reflexivity|]. split; [reflexivity|].
  destruct (editingProduct st); cbn; lia.
Qed.

Lemma X7_complete_form_is_saved_witness :
  (forall k, In k requiredFields -> truthy (get Samples.stored k) = true)
  /\ exists st',
       saveProduct 1700000000500 Samples.stored initialState = Normal st'
       /\ handleSubmit 1700000000500 Samples.stored initialState = Normal (st', [])
       /\ productsId st' <> productsId initialState.
Proof.
  assert (Hfilled : forall k, In k requiredFields -> truthy (get Samples.stored k) = true).
  { intros k Hk. cbn [requiredFields In] in Hk.
    repeat (destruct Hk as [<- | Hk]; [reflexivity|]). contradiction. }
  split; [exact Hfilled|].
  exact (proj2 (X7_complete_form_is_saved 1700000000500 Samples.stored initialState) Hfilled).
Defined.

(** X8: a record created from a form that the renewal effect has run on
    and that passes validation is stored with the renewal date that
    [calculateRenewalDate] gives for its own activation date and validity
    period. *)
Theorem X8_created_record_carries_derived_date
  (h : Host) (now : Z) (formData formData' : object) (st : state)
  (Hadding : editingProduct st = None)
  (Heffect : renewalEffect h formData = Normal formData')
  (Hvalid : snd (validateForm formData') = true) :
  exists st' record renewal,
    handleSubmit now formData' st = Normal (st', [])
    /\ products st' = (products st ++ [record])%list
    /\ get record "id" = VNumber now
    /\ calculateRenewalDate h (get record "activationDate") (get record "validityPeriod")
       = Normal renewal
    /\ get record "renewalDate" = VString renewal.
Proof.
  pose proof (proj1 (SubmitFacts.validateForm_passes_iff formData') Hvalid) as Hreq.
  assert (Ha' : truthy (get formData' "activationDate") = true) by (apply Hreq; cbn; tauto).
  assert (Hv' : truthy (get formData' "validityPeriod") = true) by (apply Hreq; cbn; tauto).
  unfold renewalEffect in Heffect.
  destruct (truthy (get formData "activationDate") && truthy (get formData "validityPeriod")) eqn:E.
  - destruct (calculateRenewalDate h (get formData "activationDate")
                (get formData "validityPeriod")) as [renewal|e] eqn:C; [|discriminate].
    injection Heffect as <-.
    unfold handleSubmit. destruct (validateForm _) as [errs ok]. cbn [snd] in Hvalid. subst ok.
    unfold saveProduct. rewrite Hadding.
    eexists. eexists. exists renewal. split; [reflexivity|].
    cbn [products setProducts setEditingProduct setShowAddModal].
    split; [reflexivity|]. unfold spreadWith, get.
    rewrite lookup_insert_eq. rewrite !lookup_insert_ne by discriminate.
    rewrite lookup_insert_eq. split; [reflexivity|]. split; [exact C | reflexivity].
  - injection Heffect as <-. rewrite Ha', Hv' in E. discriminate.
Qed.

Lemma X8_created_record_carries_derived_date_witness :
  renewalEffect ist Samples.typed
  = Normal (spreadWith Samples.typed "renewalDate" (VString "2025-03-15"))
  /\ snd (validateForm (spreadWith Samples.typed "renewalDate" (VString "2025-03-15"))) = true
  /\ exists st' record renewal,
       handleSubmit 1700000000500
         (spreadWith Samples.typed "renewalDate" (VString "2025-03-15")) initialState
       = Normal (st', [])
       /\ products st' = (products initialState ++ [record])%list
       /\ get record "id" = VNumber 1700000000500
       /\ calculateRenewalDate ist (get record "activationDate") (get record "validityPeriod")
          = Normal renewal
       /\ get record "renewalDate" = VString renewal.
Proof.
  assert (Heffect : renewalEffect ist Samples.typed
                    = Normal (spreadWith Samples.typed "renewalDate" (VString "2025-03-15")))
    by (vm_compute; reflexivity).
  assert (Hvalid : snd (validateForm
                          (spreadWith Samples.typed "renewalDate" (VString "2025-03-15"))) = true)
    by (vm_compute; reflexivity).
  split; [exact Heffect|]. split; [exact Hvalid|].
  exact (X8_created_record_carries_derived_date ist 1700000000500 Samples.typed
           (spreadWith Samples.typed "renewalDate" (VString "2025-03-15")) initialState
           eq_refl Heffect Hvalid).
Defined.

(** X9: [calculateRenewalDate] throws nothing but [RangeError], and only
    past its guard; it does throw when the activation date does not parse
    or the validity period does not start with a number, and the form's
    effect then throws as well. *)
Theorem X9_calculateRenewalDate_throws_RangeError
  (h : Host) (activationDate validityMonths : value) :
  (forall e, calculateRenewalDate h activationDate validityMonths = Throw e ->
             e = "RangeError"
             /\ truthy activationDate = true /\ truthy validityMonths = true)
  /\ (truthy activationDate = true -> truthy validityMonths = true ->
      construct h activationDate = None \/ parseInt validityMonths = None ->
      calculateRenewalDate h activationDate validityMonths = Throw "RangeError"
      /\ (forall formData,
            get formData "activationDate" = activationDate ->
            get formData "validityPeriod" = validityMonths ->
            renewalEffect h formData = Throw "RangeError")).
Proof.
  split.
  - intros e. unfold calculateRenewalDate.
    destruct (truthy activationDate), (truthy validityMonths); cbn [negb orb];
      try discriminate.
    destruct (setMonth _ _ _); cbn [toISOString]; [discriminate|].
    intros E. injection E as <-. repeat split.
  - intros Ha Hv Hbad.
    assert (C : calculateRenewalDate h activationDate validityMonths = Throw "RangeError").
    { unfold calculateRenewalDate. rewrite Ha, Hv. cbn [negb orb].
      destruct Hbad as [-> | ->].
      - reflexivity.
      - destruct (construct h activationDate); reflexivity. }
    split; [exact C|]. intros formData <- <-. unfold renewalEffect.
    now rewrite Ha, Hv, C.
Qed.

Lemma X9_calculateRenewalDate_throws_RangeError_witness :
  truthy (VString "2024-03-15") = true
  /\ truthy (VString "one year") = true
  /\ parseInt (VString "one year") = None
  /\ calculateRenewalDate ist (VString "2024-03-15") (VString "one year") = Throw "RangeError".
Proof.
  assert (Hmonths : parseInt (VString "one year") = None) by (vm_compute; reflexivity).
  split; [reflexivity|]. split; [reflexivity|]. split; [exact Hmonths|].
  exact (proj1 (proj2 (X9_calculateRenewalDate_throws_RangeError ist
                         (VString "2024-03-15") (VString "one year"))
                  eq_refl eq_refl (or_intror Hmonths))).
Defined.

Module ExpiryFacts.
Lemma filter_sublist_impl {A} (f g : A -> bool) (l : list A) :
  (forall x, In x l -> f x = true -> g x = true) ->
  sublist (List.filter f l) (List.filter g l).
Proof.
  induction l as [|x l IH]; intros H; [constructor|].
  cbn [List.filter].
  assert (IH' : sublist (List.filter f l) (List.filter g l)).
  { apply IH. intros y Hy. apply H. now right. }
  destruct (f x) eqn:F.
  - rewrite (H x (or_introl eq_refl) F). now constructor.
  - destruct (g x); [now constructor | exact IH'].
Qed.

Lemma isExpired_later h now now' v :
  now <= now' -> isExpired h now v = true -> isExpired h now' v = true.
Proof.
  unfold isExpired. intros Hle. destruct (negb (truthy v)); [discriminate|].
  destruct (construct h v); [|discriminate]. rewrite !Z.ltb_lt. lia.
Qed.
End ExpiryFacts.

(** X10: what is expired at some time is expired at every later time,
    and the list of expired records only grows, keeping its order. *)
Theorem X10_expired_stays_expired
  (h : Host) (now now' : Z) (st : state) (Hlater : now <= now') :
  (forall renewalDate,
     isExpired h now renewalDate = true -> isExpired h now' renewalDate = true)
  /\ sublist (expiredProducts h now st) (expiredProducts h now' st).
Proof.
  split.
  - intros v. now apply ExpiryFacts.isExpired_later.
  - apply ExpiryFacts.filter_sublist_impl. intros p _.
    now apply ExpiryFacts.isExpired_later.
Qed.

Lemma X10_expired_stays_expired_witness :
  Samples.today <= Samples.today + 86400000
  /\ (forall renewalDate,
        isExpired ist Samples.today renewalDate = true ->
        isExpired ist (Samples.today + 86400000) renewalDate = true)
  /\ sublist (expiredProducts ist Samples.today (withProducts [Samples.legacyRow]))
             (expiredProducts ist (Samples.today + 86400000) (withProducts [Samples.legacyRow])).
Proof.
  assert (Hlater : Samples.today <= Samples.today + 86400000) by lia.
  split; [exact Hlater|].
  exact (X10_expired_stays_expired ist Samples.today (Samples.today + 86400000)
           (withProducts [Samples.legacyRow]) Hlater).
Defined.

(** X11: for every record in the list of expired records [daysOverdue]
    is a number, not [NaN], it is not negative, and it is the number of
    whole days elapsed since the renewal date (as long as that time is
    within the exact range of the component's numbers). *)
Theorem X11_daysOverdue_of_listed_record
  (h : Host) (now : Z) (st : state) (p : object)
  (Hlisted : In p (expiredProducts h now st))
  (Hexact : forall t, construct h (get p "renewalDate") = Some t ->
                      now - t < 9007199254740992) :
  exists t n,
    construct h (get p "renewalDate") = Some t
    /\ daysOverdue h now (get p "renewalDate") = Some n
    /\ 0 <= n
    /\ n * msPerDay <= now - t < (n + 1) * msPerDay.
Proof.
  apply List.filter_In in Hlisted as [_ H]. unfold isExpired in H.
  destruct (negb (truthy (get p "renewalDate"))); [discriminate|].
  unfold daysOverdue. destruct (construct h (get p "renewalDate")) as [t|]; [|discriminate].
  apply Z.ltb_lt in H. exists t, ((now - t) / (1000 * 60 * 60 * 24)).
  split; [reflexivity|]. split; [reflexivity|]. unfold msPerDay.
  change (1000 * 60 * 60 * 24) with 86400000. Z.div_mod_to_equations. lia.
Qed.

Lemma X11_daysOverdue_of_listed_record_witness :
  In Samples.legacyRow (expiredProducts ist Samples.today (withProducts [Samples.legacyRow]))
  /\ exists t n,
       construct ist (get Samples.legacyRow "renewalDate") = Some t
       /\ daysOverdue ist Samples.today (get Samples.legacyRow "renewalDate") = Some n
       /\ 0 <= n
       /\ n * msPerDay <= Samples.today - t < (n + 1) * msPerDay.
Proof.
  assert (Hlisted : In Samples.legacyRow
                      (expiredProducts ist Samples.today (withProducts [Samples.legacyRow])))
    by (vm_compute; left; reflexivity).
  split; [exact Hlisted|].
  apply (X11_daysOverdue_of_listed_record ist Samples.today (withProducts [Samples.legacyRow])
           Samples.legacyRow Hlisted).
  intros t E. vm_compute in E. injection E as <-. unfold Samples.today. lia.
Defined.

(** ** Clients and distributions *)

Module ClientFacts.
Import RecordFacts.

Lemma strictEq_refl_truthy v : truthy v = true -> strictEq v v = true.
Proof.
  destruct v as [| |b|n| |s]; cbn; try discriminate; intros _.
  - now destruct b.
  - apply Z.eqb_refl.
  - apply String.eqb_refl.
Qed.

Lemma sameValueZero_eq a b : sameValueZero a b = true <-> a = b.
Proof.
  split.
  - destruct a, b; cbn [sameValueZero]; try reflexivity; apply strictEq_eq.
  - intros <-. destruct a as [| |b|n| |s]; cbn; try reflexivity.
    + now destruct b.
    + apply Z.eqb_refl.
    + apply String.eqb_refl.
Qed.

Lemma seen_In x seen : existsb (sameValueZero x) seen = true <-> In x seen.
Proof.
  rewrite List.existsb_exists. split.
  - intros (y & Hy & E). apply sameValueZero_eq in E. now subst.
  - intros H. exists x. split; [exact H | now apply sameValueZero_eq].
Qed.

Lemma fold_setAdd l : forall seen,
  List.NoDup seen ->
  List.NoDup (fold_left setAdd l seen)
  /\ (forall x, In x (fold_left setAdd l seen) <-> In x seen \/ In x l)
  /\ exists added, fold_left setAdd l seen = (seen ++ added)%list /\ sublist added l.
Proof.
  induction l as [|y l IH]; intros seen Hnd.
  - cbn. split; [exact Hnd|]. split; [intros x; tauto|].
    exists []. split; [now rewrite List.app_nil_r | constructor].
  - cbn [fold_left]. unfold setAdd at 2 4 6.
    destruct (existsb (sameValueZero y) seen) eqn:E.
    + apply seen_In in E. destruct (IH seen Hnd) as (H1 & H2 & added & H3 & H4).
      split; [exact H1|]. split.
      * intros x. rewrite H2. cbn [In]. split; [tauto|].
        intros [H | [<- | H]]; tauto.
      * exists added. split; [exact H3 | now constructor].
    + assert (Hy : ~ In y seen).
      { intros H. apply seen_In in H. congruence. }
      assert (Hnd' : List.NoDup (seen ++ [y])%list).
      { apply List.NoDup_app;
          [exact Hnd | repeat constructor; intros [] | intros x Hx [<- | []]; contradiction]. }
      destruct (IH _ Hnd') as (H1 & H2 & added & H3 & H4).
      split; [exact H1|]. split.
      * intros x. rewrite H2, List.in_app_iff. cbn [In]. tauto.
      * exists (y :: added). split; [now rewrite H3, <- List.app_assoc | now constructor].
Qed.

Lemma distinct_spec l :
  List.NoDup (distinct l)
  /\ (forall x, In x (distinct l) <-> In x l)
  /\ sublist (distinct l) l.
Proof.
  destruct (fold_setAdd l [] (List.NoDup_nil _)) as (H1 & H2 & added & H3 & H4).
  unfold distinct. split; [exact H1|]. split.
  - intros x. rewrite H2. cbn [In]. tauto.
  - rewrite H3. exact H4.
Qed.

Lemma list_sum_cons x l : list_sum (x :: l) = (x + list_sum l)%nat.
Proof. reflexivity. Qed.

Lemma list_sum_zero {A} (l : list A) : list_sum (List.map (fun _ => 0%nat) l) = 0%nat.
Proof. induction l; cbn; auto. Qed.

Lemma list_sum_add {A} (f g : A -> nat) l :
  list_sum (List.map (fun x => (f x + g x)%nat) l)
  = (list_sum (List.map f l) + list_sum (List.map g l))%nat.
Proof.
  induction l as [|x l IH]; [reflexivity|].
  cbn [List.map]. rewrite !list_sum_cons, IH. lia.
Qed.

Lemma one_match k cs :
  List.NoDup cs ->
  list_sum (List.map (fun c => if strictEq k c then 1%nat else 0%nat) cs)
  = if existsb (strictEq k) cs then 1%nat else 0%nat.
Proof.
  induction 1 as [|c cs Hc Hnd IH]; [reflexivity|].
  cbn [List.map existsb]. rewrite list_sum_cons, IH.
  destruct (strictEq k c) eqn:E; cbn [orb]; [|reflexivity].
  apply strictEq_eq in E. subst c.
  destruct (existsb (strictEq k) cs) eqn:E'; [|reflexivity].
  apply List.existsb_exists in E' as (c' & Hc' & E'). apply strictEq_eq in E'. subst c'.
  contradiction.
Qed.

(** Counting the records under each of several distinct labels counts
    every record that carries one of the labels once. *)
Lemma count_partition {A} (key : A -> value) (cs : list value) (l : list A) :
  List.NoDup cs ->
  list_sum (List.map (fun c => length (List.filter (fun p => strictEq (key p) c) l)) cs)
  = length (List.filter (fun p => existsb (strictEq (key p)) cs) l).
Proof.
  intros Hnd. induction l as [|p l IH].
  - cbn. apply list_sum_zero.
  - cbn [List.filter].
    transitivity
      (list_sum (List.map (fun c => ((if strictEq (key p) c then 1 else 0)
                                     + length (List.filter (fun p => strictEq (key p) c) l))%nat) cs)).
    + f_equal. apply List.map_ext. intros c. now destruct (strictEq (key p) c).
    + rewrite list_sum_add, IH, one_match by exact Hnd.
      now destruct (existsb (strictEq (key p)) cs).
Qed.


Lemma filter_length_and {A} (f g : A -> bool) l :
  (length (List.filter (fun x => f x && g x) l) <= length (List.filter f l))%nat.
Proof. induction l as [|x l IH]; cbn; [lia|]. destruct (f x), (g x); cbn; lia. Qed.

Lemma filter_length_split {A} (f : A -> bool) l :
  (length (List.filter f l) + length (List.filter (fun x => negb (f x)) l))%nat = length l.
Proof. induction l as [|x l IH]; cbn; [lia|]. destruct (f x); cbn; lia. Qed.

Lemma clients_In st c :
  In c (clients st)
  <-> truthy c = true /\ exists p, In p (products st) /\ get p "endUserName" = c.
Proof.
  unfold clients. rewrite (proj1 (proj2 (distinct_spec _))), List.filter_In, List.in_map_iff.
  split.
  - intros [(p & E & Hp) T]. split; [exact T|]. now exists p.
  - intros [T (p & Hp & E)]. split; [now exists p | exact T].
Qed.

Lemma named_by_client st p :
  In p (products st) ->
  existsb (strictEq (get p "endUserName")) (clients st) = truthy (get p "endUserName").
Proof.
  intros Hp. destruct (truthy (get p "endUserName")) eqn:T.
  - apply List.existsb_exists. exists (get p "endUserName"). split.
    + apply clients_In. split; [exact T|]. now exists p.
    + now apply strictEq_refl_truthy.
  - destruct (existsb _ (clients st)) eqn:E; [|reflexivity].
    apply List.existsb_exists in E as (c & Hc & E). apply strictEq_eq in E.
    apply clients_In in Hc as [Tc _]. congruence.
Qed.

End ClientFacts.


(** X13: the client list has one entry per client, in the order of
    [clients]; the product counts of the entries add up to the number of
    records with a non-empty [endUserName]; every entry has at least one
    product, no more expired products than products, exactly the records
    of that client, and their distinct industry categories. *)
Theorem X13_clientDetails_partition (h : Host) (now : Z) (st : state) :
  list_sum (List.map ClientDetail.totalProducts (clientDetails h now st))
  = length (List.filter (fun p => truthy (get p "endUserName")) (products st))
  /\ List.map ClientDetail.name (clientDetails h now st) = clients st
  /\ (forall d, In d (clientDetails h now st) ->
        (1 <= ClientDetail.totalProducts d)%nat
        /\ (ClientDetail.expiredProducts d <= ClientDetail.totalProducts d)%nat
        /\ ClientDetail.totalProducts d = length (ClientDetail.products d)
        /\ (forall p, In p (ClientDetail.products d)
                      <-> In p (products st) /\ get p "endUserName" = ClientDetail.name d)
        /\ List.NoDup (ClientDetail.industries d)
        /\ (forall v, In v (ClientDetail.industries d)
                      <-> exists p, In p (ClientDetail.products d)
                                    /\ get p "industryCategory" = v)).
Proof.
  split; [|split].
  - unfold clientDetails. rewrite List.map_map. cbn [ClientDetail.totalProducts].
    rewrite (ClientFacts.count_partition (fun p => get p "endUserName"))
      by apply ClientFacts.distinct_spec.
    f_equal. apply List.filter_ext_in. intros p Hp. now apply ClientFacts.named_by_client.
  - unfold clientDetails. rewrite List.map_map. cbn [ClientDetail.name]. apply List.map_id.
  - intros d Hd. unfold clientDetails in Hd.
    apply List.in_map_iff in Hd as (c & <- & Hc).
    cbn [ClientDetail.totalProducts ClientDetail.expiredProducts ClientDetail.products
         ClientDetail.name ClientDetail.industries].
    pose proof Hc as Hc'. apply ClientFacts.clients_In in Hc' as [T (p0 & Hp0 & E0)].
    assert (Hmem : forall p, In p (List.filter (fun p => strictEq (get p "endUserName") c)
                                     (products st))
                             <-> In p (products st) /\ get p "endUserName" = c).
    { intros p. rewrite List.filter_In. split.
      - intros [Hp E]. split; [exact Hp | now apply RecordFacts.strictEq_eq].
      - intros [Hp E]. split; [exact Hp|]. rewrite E. now apply ClientFacts.strictEq_refl_truthy. }
    split; [|split; [|split; [|split; [|split]]]].
    + assert (Hin : In p0 (List.filter (fun p => strictEq (get p "endUserName") c) (products st)))
        by (apply Hmem; now split).
      destruct (List.filter _ (products st)); [contradiction | cbn; lia].
    + apply ClientFacts.filter_length_and.
    + reflexivity.
    + exact Hmem.
    + apply ClientFacts.distinct_spec.
    + intros v. rewrite (proj1 (proj2 (ClientFacts.distinct_spec _))), List.in_map_iff.
      split; intros (p & A & B); exists p; tauto.
Qed.

Lemma X13_clientDetails_partition_witness :
  In Samples.storedDetail (clientDetails ist Samples.today (withProducts [Samples.stored]))
  /\ (1 <= ClientDetail.totalProducts Samples.storedDetail)%nat
  /\ (ClientDetail.expiredProducts Samples.storedDetail
      <= ClientDetail.totalProducts Samples.storedDetail)%nat.
Proof.
  assert (Hentry : In Samples.storedDetail
                     (clientDetails ist Samples.today (withProducts [Samples.stored])))
    by (vm_compute; left; reflexivity).
  split; [exact Hentry|].
  destruct (X13_clientDetails_partition ist Samples.today (withProducts [Samples.stored]))
    as (_ & _ & Hentries).
  destruct (Hentries Samples.storedDetail Hentry) as (Hone & Hexpired & _).
  split; [exact Hone | exact Hexpired].
Defined.

(** X14: the two network-type counts and the records whose network type
    is neither "2G" nor "4G" add up to the number of records, and likewise
    for the SIM providers "VI" and "AIRTEL": a record with another value
    is in no count. *)
Theorem X14_distribution_counts_listed_labels_only (st : state) :
  (list_sum (List.map snd (networkTypeDistribution st))
   + length (List.filter
               (fun p => negb (existsb (strictEq (get p "networkType"))
                                 [VString "2G"; VString "4G"]))
               (products st)))%nat
  = length (products st)
  /\ (list_sum (List.map snd (simProviderDistribution st))
      + length (List.filter
                  (fun p => negb (existsb (strictEq (get p "simProvider"))
                                    [VString "VI"; VString "AIRTEL"]))
                  (products st)))%nat
     = length (products st).
Proof.
  unfold networkTypeDistribution, simProviderDistribution, distribution.
  rewrite !List.map_map. cbn [snd].
  split.
  - change (list_sum (List.map _ ["2G"; "4G"]))
      with (list_sum (List.map
              (fun c => length (List.filter (fun p => strictEq (get p "networkType") c)
                                  (products st)))
              [VString "2G"; VString "4G"])).
    rewrite ClientFacts.count_partition.
    + apply ClientFacts.filter_length_split.
    + repeat constructor; cbn; intros H; intuition discriminate.
  - change (list_sum (List.map _ ["VI"; "AIRTEL"]))
      with (list_sum (List.map
              (fun c => length (List.filter (fun p => strictEq (get p "simProvider") c)
                                  (products st)))
              [VString "VI"; VString "AIRTEL"])).
    rewrite ClientFacts.count_partition.
    + apply ClientFacts.filter_length_split.
    + repeat constructor; cbn; intros H; intuition discriminate.
Qed.

(** ** Searching *)

Module SearchFacts.

Lemma toLowerChar_idempotent c : toLowerChar (toLowerChar c) = toLowerChar c.
Proof. destruct c as [[] [] [] [] [] [] [] []]; reflexivity. Qed.

Lemma toLowerCase_idempotent s : toLowerCase (toLowerCase s) = toLowerCase s.
Proof.
  induction s as [|c s IH]; [reflexivity|].
  cbn [toLowerCase]. now rewrite toLowerChar_idempotent, IH.
Qed.

Lemma toLowerCase_empty s : toLowerCase s = "" <-> s = "".
Proof. destruct s; cbn; split; congruence. Qed.

Lemma same_emptiness s t :
  toLowerCase s = toLowerCase t -> truthy (VString s) = truthy (VString t).
Proof.
  intros E. cbn [truthy]. destruct s, t; try reflexivity; discriminate E.
Qed.

Lemma matchesSearch_lowered s t column p :
  toLowerCase s = toLowerCase t -> matchesSearch s column p = matchesSearch t column p.
Proof.
  intros E. unfold matchesSearch. now rewrite (same_emptiness s t E), E.
Qed.

Lemma includes_empty_text t : t <> "" -> includes "" t = false.
Proof. destruct t; [congruence | reflexivity]. Qed.

Lemma truthy_get_own (p : object) k :
  truthy (get p k) = true -> p !! k = Some (get p k).
Proof. unfold get. destruct (p !! k); [reflexivity | discriminate]. Qed.

Lemma own_value_listed (p : object) k v : p !! k = Some v -> In v (values p).
Proof.
  intros H. unfold values. apply list_elem_of_In, list_elem_of_fmap.
  exists (k, v). split; [reflexivity|]. now apply elem_of_map_to_list.
Qed.

Lemma column_match_is_any_match term column p :
  matchesSearch term column p = true -> matchesSearch term AllColumns p = true.
Proof.
  unfold matchesSearch. destruct (negb (truthy (VString term))) eqn:T; [reflexivity|].
  destruct column; cbn [columnKey]; try exact (fun H => H);
    (change (String.eqb "all" "all") with true; cbv iota;
     match goal with |- context [String.eqb ?a "all"] => change (String.eqb a "all") with false end;
     cbv iota;
     match goal with |- context [get p ?k] => set (key := k) end;
     unfold or_else; destruct (truthy (get p key)) eqn:G;
     [ intros H; apply List.existsb_exists; exists (get p key);
       split; [apply (own_value_listed p key), truthy_get_own, G | exact H]
     | cbn [ToString toLowerCase]; rewrite includes_empty_text;
       [discriminate | intros E; apply (proj1 (toLowerCase_empty term)) in E; rewrite E in T; discriminate T] ]).
Qed.

End SearchFacts.

(** X15: two search terms that differ only in the case of their letters
    list the same records. *)
Theorem X15_search_ignores_case_of_term (term term' : string) (st : state)
  (Hcase : toLowerCase term = toLowerCase term') :
  filteredProducts (setSearchTerm term st) = filteredProducts (setSearchTerm term' st).
Proof.
  unfold filteredProducts. cbn [setSearchTerm products searchTerm filterColumn].
  apply List.filter_ext. intros p. now apply SearchFacts.matchesSearch_lowered.
Qed.

Lemma X15_search_ignores_case_of_term_witness :
  toLowerCase "ALP" = toLowerCase "alp"
  /\ filteredProducts (setSearchTerm "ALP" (withProducts [Samples.alpha; Samples.beta]))
     = filteredProducts (setSearchTerm "alp" (withProducts [Samples.alpha; Samples.beta])).
Proof.
  split; [reflexivity|].
  apply (X15_search_ignores_case_of_term "ALP" "alp"). reflexivity.
Defined.

(** X16: for one and the same term, the listing under any column is a
    subsequence of the listing under "All Columns". *)
Theorem X16_column_search_narrows (column : App.column) (st : state) :
  sublist (filteredProducts (setFilterColumn column st))
          (filteredProducts (setFilterColumn AllColumns st)).
Proof.
  unfold filteredProducts. cbn [setFilterColumn products searchTerm filterColumn].
  apply ExpiryFacts.filter_sublist_impl. intros p _.
  apply SearchFacts.column_match_is_any_match.
Qed.

Module FindFacts.

Lemma startsWith_itself s : startsWith s s = true.
Proof. induction s as [|c s IH]; [reflexivity|]. cbn. now rewrite Ascii.eqb_refl. Qed.

Lemma includes_itself s : includes s s = true.
Proof. destruct s; [reflexivity|]. cbn [includes]. now rewrite startsWith_itself. Qed.

End FindFacts.

(** X25: searching all columns for the full text of any field of a
    record, its [id] included, lists that record. *)
Theorem X25_search_finds_a_record_by_any_field
  (st : state) (p : object) (k : string) (v : value)
  (Hrecord : In p (products st)) (Hfield : p !! k = Some v) :
  In p (filteredProducts (setFilterColumn AllColumns (setSearchTerm (ToString v) st))).
Proof.
  unfold filteredProducts.
  cbn [setFilterColumn setSearchTerm products searchTerm filterColumn].
  apply List.filter_In. split; [exact Hrecord|].
  unfold matchesSearch. destruct (negb (truthy (VString (ToString v)))); [reflexivity|].
  change (String.eqb (columnKey AllColumns) "all") with true. cbv iota.
  apply List.existsb_exists. exists v. split.
  - exact (SearchFacts.own_value_listed p k v Hfield).
  - apply FindFacts.includes_itself.
Qed.

Lemma X25_search_finds_a_record_by_any_field_witness :
  In Samples.stored (products (withProducts [Samples.stored]))
  /\ Samples.stored !! "id" = Some (VNumber 1700000000000)
  /\ In Samples.stored
       (filteredProducts
          (setFilterColumn AllColumns
             (setSearchTerm (ToString (VNumber 1700000000000))
                (withProducts [Samples.stored])))).
Proof.
  assert (Hrecord : In Samples.stored (products (withProducts [Samples.stored])))
    by (left; reflexivity).
  assert (Hfield : Samples.stored !! "id" = Some (VNumber 1700000000000)) by reflexivity.
  split; [exact Hrecord|]. split; [exact Hfield|].
  exact (X25_search_finds_a_record_by_any_field (withProducts [Samples.stored])
           Samples.stored "id" (VNumber 1700000000000) Hrecord Hfield).
Defined.

(** ** Buckets and sessions *)

Module BucketFacts.

Lemma countIndustry_holds h acc product count :
  inherited (industryKey product) = false -> holds acc count ->
  holds (countIndustry h acc product)
        (fun k => (count k + if String.eqb (industryKey product) k then 1 else 0)%nat).
Proof.
  intros Hkey Hacc k. unfold countIndustry. fold (industryKey product).
  unfold getAny, setAny.
  rewrite (AnalyticsFacts.not_inherited_not_proto _ Hkey), Hkey, (Hacc (industryKey product)).
  destruct (String.eqb_spec (industryKey product) k) as [<- | Hne].
  - rewrite lookup_insert_eq.
    destruct (Nat.eqb_spec (count (industryKey product)) 0) as [E | E].
    + rewrite E. reflexivity.
    + destruct (Nat.eqb_spec (count (industryKey product) + 1) 0); [lia|].
      unfold or_else. cbn [truthy].
      destruct (Z.eqb_spec (Z.of_nat (count (industryKey product))) 0); [lia|].
      cbn. do 2 f_equal. lia.
  - rewrite lookup_insert_ne by exact Hne. rewrite Nat.add_0_r. apply Hacc.
Qed.

Lemma fold_countIndustry_holds h l : forall acc count,
  Forall (fun p => inherited (industryKey p) = false) l -> holds acc count ->
  holds (fold_left (countIndustry h) l acc)
        (fun k => (count k + records_under k l)%nat).
Proof.
  induction l as [|p l IH]; intros acc count Hl Hacc.
  - intros k. unfold records_under. cbn. rewrite Nat.add_0_r. apply Hacc.
  - inversion Hl as [|? ? Hp Hl']; subst. cbn [fold_left].
    intros k. rewrite (IH _ _ Hl' (countIndustry_holds h acc p count Hp Hacc) k).
    unfold records_under. cbn [List.filter].
    destruct (String.eqb (industryKey p) k); cbn [length];
      replace (count k + 0 + length (List.filter (fun p0 => String.eqb (industryKey p0) k) l))%nat
        with (count k + length (List.filter (fun p0 => String.eqb (industryKey p0) k) l))%nat
        by lia;
      try reflexivity.
    replace (count k + 1 + length (List.filter (fun p0 => String.eqb (industryKey p0) k) l))%nat
      with (count k + S (length (List.filter (fun p0 => String.eqb (industryKey p0) k) l)))%nat
      by lia.
    reflexivity.
Qed.

End BucketFacts.

(** X17: when no category is the name of a property of
    [Object.prototype], the analytics object has, under each key, the
    number of records counted under that key, and no entry for a key
    without records; there are at most as many industries as records. *)
Theorem X17_industry_bucket_holds_its_count (h : Host) (st : state) (k : string)
  (Hkeys : Forall (fun p => inherited (industryKey p) = false) (products st)) :
  industryAnalytics h st !! k
  = (if (records_under k (products st) =? 0)%nat then None
     else Some (VNumber (Z.of_nat (records_under k (products st)))))
  /\ (industriesServed h st <= length (products st))%nat.
Proof.
  assert (Hb : holds (industryAnalytics h st)
                 (fun k => (0 + records_under k (products st))%nat)).
  { unfold industryAnalytics. apply BucketFacts.fold_countIndustry_holds; [exact Hkeys|].
    intros k'. now rewrite lookup_empty. }
  split; [exact (Hb k)|].
  destruct (AnalyticsFacts.industryAnalytics_total h st Hkeys) as [Hc Ht].
  unfold industriesServed.
  assert (Hsize : forall acc : object, counted acc -> Z.of_nat (size acc) <= totalCount acc).
  { intros acc. induction acc as [|i x m Hi _ IH] using map_first_key_ind.
    - intros _. rewrite map_size_empty. unfold totalCount. rewrite map_fold_empty. lia.
    - intros Hm. rewrite map_size_insert_None by exact Hi.
      rewrite AnalyticsFacts.totalCount_insert_fresh by exact Hi.
      apply map_Forall_insert in Hm as [(n & -> & Hn) Hm]; [|exact Hi].
      specialize (IH Hm). cbn [countOf]. lia. }
  specialize (Hsize _ Hc). lia.
Qed.

Lemma X17_industry_bucket_holds_its_count_witness :
  Forall (fun p => inherited (industryKey p) = false) (products (withProducts [Samples.stored]))
  /\ industryAnalytics ist (withProducts [Samples.stored]) !! "Mining"
     = (if (records_under "Mining" (products (withProducts [Samples.stored])) =? 0)%nat
        then None
        else Some (VNumber (Z.of_nat
                     (records_under "Mining" (products (withProducts [Samples.stored]))))))
  /\ (industriesServed ist (withProducts [Samples.stored])
      <= length (products (withProducts [Samples.stored])))%nat.
Proof.
  assert (Hkeys : Forall (fun p => inherited (industryKey p) = false)
                    (products (withProducts [Samples.stored])))
    by (constructor; [reflexivity | constructor]).
  split; [exact Hkeys|].
  exact (X17_industry_bucket_holds_its_count ist (withProducts [Samples.stored]) "Mining" Hkeys).
Defined.

Module SessionFacts.

Lemma persistEffect_synced st ls : synced (st, persistEffect st ls).
Proof.
  unfold synced, persistEffect. cbn [fst snd].
  destruct (products st) as [|p l]; [now left | right; reflexivity].
Qed.

Lemma persistEffect_no_empty st ls :
  no_empty_snapshot ls -> no_empty_snapshot (persistEffect st ls).
Proof.
  unfold persistEffect. intros H.
  destruct (products st) as [|p l] eqn:E; cbn; [exact H|].
  constructor; [discriminate | exact H].
Qed.

Lemma handle_same_array ev st st' :
  handle ev st = Normal st' -> productsId st' = productsId st -> products st' = products st.
Proof.
  destruct ev as [now formData | confirmed id | file]; cbn [handle].
  - unfold handleSubmit. destruct (validateForm formData) as [errs [|]].
    + unfold saveProduct. intros E. injection E as <-.
      destruct (editingProduct st); cbn; lia.
    + intros E. now injection E as <-.
  - unfold deleteProduct. destruct confirmed; intros E; injection E as <-; [cbn; lia | reflexivity].
  - unfold importFromExcel. destruct file; intros E; injection E as <-; [cbn; lia | reflexivity].
Qed.

Lemma step_keeps ev w :
  synced w -> synced (step ev w)
  /\ (no_empty_snapshot (snd w) -> no_empty_snapshot (snd (step ev w))).
Proof.
  destruct w as [st ls]. intros Hs. unfold step.
  destruct (handle ev st) as [st'|e] eqn:H; [|split; [exact Hs | exact (fun H => H)]].
  destruct (Nat.eqb_spec (productsId st') (productsId st)) as [E | E].
  - split; [|exact (fun H => H)].
    unfold synced in *. cbn [fst snd] in *. now rewrite (handle_same_array ev st st' H E).
  - split; [apply persistEffect_synced | apply persistEffect_no_empty].
Qed.

Lemma mount_keeps ls :
  synced (mount ls) /\ (no_empty_snapshot ls -> no_empty_snapshot (snd (mount ls))).
Proof.
  unfold mount. destruct ls as [|saved ls].
  - split; [now left | exact (fun H => H)].
  - split; [apply persistEffect_synced | apply persistEffect_no_empty].
Qed.

Lemma fold_step_keeps events : forall w,
  synced w ->
  synced (fold_left (fun w ev => step ev w) events w)
  /\ (no_empty_snapshot (snd w) ->
      no_empty_snapshot (snd (fold_left (fun w ev => step ev w) events w))).
Proof.
  induction events as [|ev events IH]; intros w Hs.
  - split; [exact Hs | exact (fun H => H)].
  - cbn [fold_left]. destruct (step_keeps ev w Hs) as [Hs' Hn'].
    destruct (IH _ Hs') as [Hs'' Hn'']. split; [exact Hs''|].
    intros Hn. apply Hn'', Hn', Hn.
Qed.

End SessionFacts.

(** X18: throughout a session, whatever the actions, the newest
    snapshot in the store is the current record set unless that set is
    empty, and no action writes an empty snapshot. *)
Theorem X18_store_follows_the_record_set (events : list event) (ls : storage) :
  (products (fst (run events ls)) = []
   \/ head (snd (run events ls)) = Some (products (fst (run events ls))))
  /\ (Forall (fun snapshot => snapshot <> []) ls ->
      Forall (fun snapshot => snapshot <> []) (snd (run events ls))).
Proof.
  unfold run. destruct (SessionFacts.mount_keeps ls) as [Hs Hn].
  destruct (SessionFacts.fold_step_keeps events (mount ls) Hs) as [Hs' Hn'].
  split; [exact Hs'|]. intros H. apply Hn', Hn, H.
Qed.

Lemma X18_store_follows_the_record_set_witness :
  Forall (fun snapshot : list object => snapshot <> []) [[Samples.stored]]
  /\ Forall (fun snapshot : list object => snapshot <> [])
       (snd (run [Delete true (VNumber 1700000000000); Import (Some [Samples.bareRow])]
               [[Samples.stored]])).
Proof.
  assert (Hstore : Forall (fun snapshot : list object => snapshot <> []) [[Samples.stored]])
    by (constructor; [discriminate | constructor]).
  split; [exact Hstore|].
  exact (proj2 (X18_store_follows_the_record_set
                  [Delete true (VNumber 1700000000000); Import (Some [Samples.bareRow])]
                  [[Samples.stored]]) Hstore).
Defined.

(** ** Months in either direction, and the export *)

Module MonthFacts.

Lemma DayFromYear_wide y :
  -20000 <= y <= 270000 -> -8100000 <= DayFromYear y <= 98000000.
Proof. intros H. unfold DayFromYear. Z.div_mod_to_equations. lia. Qed.

Lemma TimeClip_wide day :
  -99000000 <= day <= 99000000 -> TimeClip (MakeDate day 0) = Some (MakeDate day 0).
Proof.
  intros H. unfold TimeClip, MakeDate, msPerDay.
  destruct (Z.ltb_spec 8640000000000000 (Z.abs (day * 86400000 + 0))); [lia | reflexivity].
Qed.

Lemma isoDate_on_day y mn d w :
  0 <= mn <= 11 -> 1 <= d <= daysInMonth y (mn + 1) -> 0 <= w < msPerDay ->
  isoDate (MakeDate (MakeDay y mn d) w) = dateText y (mn + 1) d.
Proof.
  intros Hmn Hd Hw.
  destruct (civil_of_MakeDay y mn d w Hmn Hd Hw) as (HY & HM & HD).
  unfold isoDate, dateText. now rewrite HY, HM, HD.
Qed.

Lemma truthy_dateText y m d : truthy (VString (dateText y m d)) = true.
Proof.
  unfold dateText. destruct (RenewalFacts.isoYear_head y) as (c & s & -> & _). reflexivity.
Qed.

Section FixedOffset.
Variable h : Host.
Variable off : Z.
Hypothesis Htz : fixedOffset h off.
Hypothesis Hoff : 0 <= off < msPerDay.

(** [calculateRenewalDate] for any number of months, forwards or backwards. *)
Lemma calculateRenewalDate_shifts y m d vm n :
  0 <= y <= 9999 -> validDate y m d ->
  truthy vm = true -> parseInt vm = Some n -> -100000 <= n <= 3000000 ->
  calculateRenewalDate h (VString (dateText y m d)) vm
  = Normal (showDate (addMonthsRolling y m d n)).
Proof using Htz Hoff.
  intros Hy [Hm Hd] Hvm Hn Hrange.
  unfold calculateRenewalDate. rewrite truthy_dateText, Hvm. cbn [negb orb].
  rewrite construct_dateText by (assumption || (split; assumption)).
  assert (Hd' : 1 <= d <= daysInMonth y (m - 1 + 1)) by (now replace (m - 1 + 1) with m by lia).
  rewrite (getMonth_civil h off Htz Hoff), Hn by (assumption || lia). cbn [numAdd].
  rewrite (setMonth_civil h off Htz Hoff) by (assumption || lia).
  rewrite MakeDay_normalize.
  unfold addMonthsRolling.
  set (k := m - 1 + n). set (ty := y + k / 12). set (mn := k mod 12).
  assert (Hmn : 0 <= mn <= 11) by (subst mn; Z.div_mod_to_equations; lia).
  assert (Hty : -9000 <= ty <= 260001) by (subst ty k; Z.div_mod_to_equations; lia).
  pose proof (daysInMonth_bounds y m) as Hb.
  pose proof (DayFromYear_wide ty) as Hdf.
  pose proof (LeapDays_bounds ty) as Hl.
  destruct (Z.leb_spec d (daysInMonth ty (mn + 1))) as [Hfit | Hover].
  - rewrite TimeClip_wide.
    2:{ rewrite MakeDay_in_range by lia.
        pose proof (monthStart_bounds mn (LeapDays ty) Hl). lia. }
    unfold toISOString. rewrite isoDate_civil by lia.
    cbn [showDate]. f_equal. apply splitHead_dateText; lia.
  - destruct (MakeDay_overflow ty mn d Hmn) as (Hm10 & -> & Hrest); [lia|].
    replace (mn + 2) with (mn + 1 + 1) in Hrest by lia.
    pose proof (daysInMonth_bounds ty (mn + 1)) as Hb1.
    pose proof (daysInMonth_bounds ty (mn + 1 + 1)) as Hb2.
    rewrite TimeClip_wide.
    2:{ rewrite MakeDay_in_range by lia.
        pose proof (monthStart_bounds (mn + 1) (LeapDays ty) Hl). lia. }
    unfold toISOString.
    rewrite isoDate_civil by lia.
    cbn [showDate]. f_equal. apply splitHead_dateText; lia.
Qed.

End FixedOffset.

Lemma addMonthsRolling_zero y m d :
  validDate y m d -> addMonthsRolling y m d 0 = (y, m, d).
Proof.
  intros [Hm Hd]. unfold addMonthsRolling. cbv zeta.
  replace (m - 1 + 0) with (m - 1) by lia.
  replace ((m - 1) / 12) with 0 by (Z.div_mod_to_equations; lia).
  replace ((m - 1) mod 12 + 1) with m by (Z.div_mod_to_equations; lia).
  replace (y + 0) with y by lia.
  destruct (Z.leb_spec d (daysInMonth y m)); [reflexivity | lia].
Qed.

Lemma addMonthsRolling_back y m d n :
  1 <= m <= 12 -> 1 <= d <= 28 ->
  addMonthsRolling y m d n = (y + (m - 1 + n) / 12, (m - 1 + n) mod 12 + 1, d)
  /\ addMonthsRolling (y + (m - 1 + n) / 12) ((m - 1 + n) mod 12 + 1) d (- n) = (y, m, d).
Proof.
  intros Hm Hd. unfold addMonthsRolling. cbv zeta.
  set (k := m - 1 + n).
  pose proof (daysInMonth_bounds (y + k / 12) (k mod 12 + 1)).
  destruct (Z.leb_spec d (daysInMonth (y + k / 12) (k mod 12 + 1))); [|lia].
  split; [reflexivity|].
  replace (k mod 12 + 1 - 1 + - n) with (m - 1 - 12 * (k / 12))
    by (subst k; Z.div_mod_to_equations; lia).
  replace ((m - 1 - 12 * (k / 12)) / 12) with (- (k / 12)) by (Z.div_mod_to_equations; lia).
  replace ((m - 1 - 12 * (k / 12)) mod 12 + 1) with m by (Z.div_mod_to_equations; lia).
  replace (y + k / 12 + - (k / 12)) with y by lia.
  pose proof (daysInMonth_bounds y m).
  destruct (Z.leb_spec d (daysInMonth y m)); [reflexivity | lia].
Qed.

End MonthFacts.

(** X19: in a zone at a constant offset at or east of UTC, a number of
    months that is zero or negative is applied like a positive one: the
    date moves back by that many months, and the text "0" gives the
    activation date itself. *)
Theorem X19_months_may_be_zero_or_negative
  (h : Host) (off y m d : Z) (validityMonths : value) (n : Z)
  (Hzone : fixedOffset h off) (Heast : 0 <= off < msPerDay)
  (Hyear : 0 <= y <= 9999) (Hdate : validDate y m d)
  (Hpresent : truthy validityMonths = true)
  (Hmonths : parseInt validityMonths = Some n) (Hrange : -100000 <= n <= 3000000) :
  calculateRenewalDate h (VString (dateText y m d)) validityMonths
  = Normal (showDate (addMonthsRolling y m d n))
  /\ calculateRenewalDate h (VString (dateText y m d)) (VString "0")
     = Normal (dateText y m d).
Proof.
  split.
  - now apply (MonthFacts.calculateRenewalDate_shifts h off).
  - rewrite (MonthFacts.calculateRenewalDate_shifts h off Hzone Heast y m d (VString "0") 0);
      [ | assumption | assumption | reflexivity | vm_compute; reflexivity | lia ].
    now rewrite MonthFacts.addMonthsRolling_zero.
Qed.

Lemma X19_months_may_be_zero_or_negative_witness :
  calculateRenewalDate ist (VString (dateText 2024 3 15)) (VString "-3")
  = Normal (showDate (addMonthsRolling 2024 3 15 (-3)))
  /\ calculateRenewalDate ist (VString (dateText 2024 3 15)) (VString "0")
     = Normal (dateText 2024 3 15).
Proof.
  apply (X19_months_may_be_zero_or_negative ist 19800000 2024 3 15 (VString "-3") (-3)).
  - intros t u. reflexivity.
  - unfold msPerDay. lia.
  - lia.
  - split; [lia | vm_compute; split; discriminate].
  - reflexivity.
  - vm_compute. reflexivity.
  - lia.
Defined.

(** X20: for an activation date on day 1 to 28, subtracting from the
    renewal date the months that were added gives the activation date
    back. *)
Theorem X20_renewal_can_be_undone
  (h : Host) (off y m d : Z) (forwards backwards : value) (n : Z)
  (Hzone : fixedOffset h off) (Heast : 0 <= off < msPerDay)
  (Hyear : 0 <= y <= 9999) (Hmonth : 1 <= m <= 12) (Hday : 1 <= d <= 28)
  (Hforwards : parseInt forwards = Some n) (Hpositive : 0 < n <= 100000)
  (Htarget : y + (m - 1 + n) / 12 <= 9999)
  (Hnegated : truthy backwards = true) (Hbackwards : parseInt backwards = Some (- n)) :
  exists renewal,
    calculateRenewalDate h (VString (dateText y m d)) forwards = Normal renewal
    /\ calculateRenewalDate h (VString renewal) backwards = Normal (dateText y m d).
Proof.
  pose proof (daysInMonth_bounds y m) as Hb.
  assert (Hdate : validDate y m d) by (split; lia).
  destruct (MonthFacts.addMonthsRolling_back y m d n Hmonth Hday) as [Hfwd Hback].
  exists (showDate (addMonthsRolling y m d n)). split.
  - apply (MonthFacts.calculateRenewalDate_shifts h off); try assumption; [|lia].
    apply (RenewalFacts.parseInt_positive_truthy _ n); [assumption | lia].
  - rewrite Hfwd. cbn [showDate].
    set (ty := y + (m - 1 + n) / 12) in *. set (tm := (m - 1 + n) mod 12 + 1) in *.
    pose proof (daysInMonth_bounds ty tm) as Hb'.
    rewrite (MonthFacts.calculateRenewalDate_shifts h off Hzone Heast ty tm d backwards (- n));
      [ now rewrite Hback | | | assumption | assumption | lia ].
    + subst ty. split; [Z.div_mod_to_equations; lia | assumption].
    + split; [subst tm; Z.div_mod_to_equations; lia | lia].
Qed.

Lemma X20_renewal_can_be_undone_witness :
  exists renewal,
    calculateRenewalDate ist (VString (dateText 2024 8 15)) (VString "6") = Normal renewal
    /\ calculateRenewalDate ist (VString renewal) (VNumber (-6)) = Normal (dateText 2024 8 15).
Proof.
  apply (X20_renewal_can_be_undone ist 19800000 2024 8 15 (VString "6") (VNumber (-6)) 6).
  - intros t u. reflexivity.
  - unfold msPerDay. lia.
  - lia.
  - lia.
  - lia.
  - vm_compute. reflexivity.
  - lia.
  - vm_compute. discriminate.
  - reflexivity.
  - vm_compute. reflexivity.
Defined.

(** X21: the exported file is named after the calendar day, in UTC, of
    the moment of the export. *)
Theorem X21_export_is_named_after_the_UTC_day (y m d w : Z)
  (Hyear : -200000 <= y <= 200000) (Hdate : validDate y m d)
  (Htime : 0 <= w < msPerDay) :
  exportFileName (MakeDate (MakeDay y (m - 1) d) w)
  = Normal ("Product_Inventory_" ++ dateText y m d ++ ".xlsx").
Proof.
  destruct Hdate as [Hm Hd]. pose proof (daysInMonth_bounds y m).
  unfold exportFileName, toISOString.
  rewrite MonthFacts.isoDate_on_day by (try replace (m - 1 + 1) with m by lia; lia).
  replace (m - 1 + 1) with m by lia.
  match goal with
  | |- context [splitHead "T" (?a ++ "T" ++ ?r)] =>
      change (splitHead "T" (a ++ "T" ++ r)) with (splitHead "T" (a ++ String "T" r))
  end.
  now rewrite splitHead_dateText by lia.
Qed.

Lemma X21_export_is_named_after_the_UTC_day_witness :
  exportFileName (MakeDate (MakeDay 2024 (11 - 1) 2) 66600000)
  = Normal ("Product_Inventory_" ++ dateText 2024 11 2 ++ ".xlsx").
Proof.
  apply (X21_export_is_named_after_the_UTC_day 2024 11 2 66600000).
  - lia.
  - split; [lia | vm_compute; split; discriminate].
  - unfold msPerDay. lia.
Defined.

(** ** Numbers as validity periods *)

Module NumberFacts.

Lemma digitValue_pretty_N_char k :
  (k < 10)%N -> digitValue (pretty_N_char k) = Some (Z.of_N k).
Proof.
  intros H.
  assert (k = 0 \/ k = 1 \/ k = 2 \/ k = 3 \/ k = 4 \/ k = 5 \/ k = 6 \/ k = 7 \/ k = 8
          \/ k = 9)%N as C by lia.
  repeat (destruct C as [C | C]); subst k; reflexivity.
Qed.

Lemma leading_plain c s :
  leading c ->
  trimStart (String c s) = String c s
  /\ stripSign (String c s) = (1, String c s)
  /\ stripHexPrefix (String c s) = (10, String c s).
Proof.
  intros (k & Hk & ->).
  assert (k = 1 \/ k = 2 \/ k = 3 \/ k = 4 \/ k = 5 \/ k = 6 \/ k = 7 \/ k = 8
          \/ k = 9)%N as C by lia.
  repeat (destruct C as [C | C]); subst k; repeat split; reflexivity.
Qed.

Lemma pretty_N_go_head x : (0 < x)%N ->
  forall s, exists c rest, pretty_N_go x s = String c rest /\ leading c.
Proof.
  induction (N.lt_wf_0 x) as [x _ IH]. intros Hx s.
  rewrite pretty_N_go_step by exact Hx.
  destruct (N.eq_dec (x `div` 10)%N 0%N) as [E | E].
  - rewrite E, pretty_N_go_0. eexists _, _. split; [reflexivity|].
    exists (x `mod` 10)%N. split; [|reflexivity].
    assert (x < 10)%N by (apply (N.div_small_iff x 10); [discriminate | exact E]).
    rewrite N.mod_small by assumption.
    split; [now apply (N.le_succ_l 0 x) | assumption].
  - apply IH; [apply N.div_lt; [exact Hx | reflexivity] | now apply N.neq_0_lt_0].
Qed.

Lemma parseDigits_pretty_N_go x : (0 < x)%N ->
  exists e, 0 <= e /\
    forall s acc,
      parseDigits 10 (pretty_N_go x s) acc
      = parseDigits 10 s (Some (10 ^ e * default 0 acc + Z.of_N x)).
Proof.
  induction (N.lt_wf_0 x) as [x _ IH]. intros Hx.
  assert (Hstep : forall s acc,
            parseDigits 10 (String (pretty_N_char (x `mod` 10)%N) s) acc
            = parseDigits 10 s (Some (10 * default 0 acc + Z.of_N (x `mod` 10)%N))).
  { intros s acc. cbn [parseDigits].
    rewrite digitValue_pretty_N_char by (apply N.mod_lt; lia).
    destruct (Z.ltb_spec (Z.of_N (x `mod` 10)%N) 10) as [_ | Hge]; [reflexivity|].
    pose proof (N.mod_lt x 10%N). lia. }
  destruct (N.eq_dec (x `div` 10)%N 0%N) as [E | E].
  - exists 1. split; [lia|]. intros s acc.
    rewrite pretty_N_go_step, E, pretty_N_go_0, Hstep by exact Hx.
    assert (x < 10)%N by (apply (N.div_small_iff x 10); [discriminate | exact E]).
    rewrite N.mod_small by assumption. do 2 f_equal.
  - destruct (IH (x `div` 10)%N) as (e & He & Hparse);
      [apply N.div_lt; [exact Hx | reflexivity] | now apply N.neq_0_lt_0|].
    exists (e + 1). split; [lia|]. intros s acc.
    rewrite pretty_N_go_step, Hparse, Hstep by exact Hx. cbn [default].
    assert (Hx10 : Z.of_N x = 10 * Z.of_N (x `div` 10)%N + Z.of_N (x `mod` 10)%N).
    { rewrite (N.div_mod x 10%N) at 1 by discriminate.
      now rewrite N2Z.inj_add, N2Z.inj_mul. }
    do 2 f_equal. rewrite Z.pow_add_r, Z.pow_1_r, Hx10 by lia. cbv [id]. ring.
Qed.

Lemma parseInt_text_of_positive p s :
  s = pretty_N_go (N.pos p) "" ->
  trimStart s = s
  /\ stripSign s = (1, s) /\ stripHexPrefix s = (10, s)
  /\ parseDigits 10 s None = Some (Z.pos p).
Proof.
  intros ->.
  destruct (pretty_N_go_head (N.pos p) eq_refl "") as (c & rest & E & Hc).
  destruct (parseDigits_pretty_N_go (N.pos p) eq_refl) as (e & He & Hparse).
  rewrite Hparse. rewrite E.
  destruct (leading_plain c rest Hc) as (-> & -> & ->).
  repeat split. cbn [parseDigits default]. f_equal. lia.
Qed.

(** [parseInt] reads an integer number back from its own text. *)
Lemma parseInt_number n : parseInt (VNumber n) = Some n.
Proof.
  destruct n as [|p|p]; [reflexivity| |].
  - destruct (parseInt_text_of_positive p _ eq_refl) as (Ht & Hs & Hx & Hd).
    unfold parseInt. change (ToString (VNumber (Z.pos p))) with (pretty_N_go (N.pos p) "").
    rewrite Ht, Hs, Hx, Hd. reflexivity.
  - destruct (parseInt_text_of_positive p _ eq_refl) as (Ht & Hs & Hx & Hd).
    assert (Hminus : forall s, trimStart (String "-" s) = String "-" s) by reflexivity.
    assert (Hsign : forall s, stripSign (String "-" s) = (-1, s)) by reflexivity.
    unfold parseInt.
    change (ToString (VNumber (Z.neg p))) with (String "-" (pretty_N_go (N.pos p) "")).
    rewrite Hminus, Hsign, Hx, Hd. reflexivity.
Qed.

End NumberFacts.

(** X22: a validity period that is a number, as an imported sheet holds
    it, is read back by [parseInt] as that number, and gives the renewal
    date that its text typed in the form gives. *)
Theorem X22_numeric_validity_is_read_back
  (h : Host) (off y m d n : Z)
  (Hzone : fixedOffset h off) (Heast : 0 <= off < msPerDay)
  (Hyear : 0 <= y <= 9999) (Hdate : validDate y m d)
  (Hpositive : 0 < n <= 3000000) :
  parseInt (VNumber n) = Some n
  /\ calculateRenewalDate h (VString (dateText y m d)) (VNumber n)
     = calculateRenewalDate h (VString (dateText y m d)) (VString (ToString (VNumber n)))
  /\ calculateRenewalDate h (VString (dateText y m d)) (VNumber n)
     = Normal (showDate (addMonthsRolling y m d n)).
Proof.
  split; [apply NumberFacts.parseInt_number|]. split.
  - unfold calculateRenewalDate.
    assert (Hsame : parseInt (VString (ToString (VNumber n))) = parseInt (VNumber n))
      by reflexivity.
    rewrite Hsame.
    assert (Ht : truthy (VString (ToString (VNumber n))) = truthy (VNumber n)).
    { rewrite (RenewalFacts.parseInt_positive_truthy (VNumber n) n);
        [|apply NumberFacts.parseInt_number | lia].
      apply (RenewalFacts.parseInt_positive_truthy _ n); [|lia].
      rewrite Hsame. apply NumberFacts.parseInt_number. }
    now rewrite Ht.
  - apply (DateFacts.calculateRenewalDate_rolls h off); try assumption.
    + apply (RenewalFacts.parseInt_positive_truthy _ n); [|lia].
      apply NumberFacts.parseInt_number.
    + apply NumberFacts.parseInt_number.
Qed.

Lemma X22_numeric_validity_is_read_back_witness :
  parseInt (VNumber 12) = Some 12
  /\ calculateRenewalDate ist (VString (dateText 2024 3 15)) (VNumber 12)
     = calculateRenewalDate ist (VString (dateText 2024 3 15))
         (VString (ToString (VNumber 12)))
  /\ calculateRenewalDate ist (VString (dateText 2024 3 15)) (VNumber 12)
     = Normal (showDate (addMonthsRolling 2024 3 15 12)).
Proof.
  apply (X22_numeric_validity_is_read_back ist 19800000 2024 3 15 12).
  - intros t u. reflexivity.
  - unfold msPerDay. lia.
  - lia.
  - split; [lia | vm_compute; split; discriminate].
  - lia.
Defined.

(** ** Expiry and the zones west of UTC *)

(** X23: a renewal date given as a calendar date is expired exactly
    when midnight UTC of that day is past, one millisecond after it
    already, whatever the time zone. *)
Theorem X23_expired_from_UTC_midnight
  (h : Host) (now y m d : Z)
  (Hyear : 0 <= y <= 9999) (Hdate : validDate y m d) :
  (isExpired h now (VString (dateText y m d)) = true
   <-> MakeDate (MakeDay y (m - 1) d) 0 < now)
  /\ isExpired h (MakeDate (MakeDay y (m - 1) d) 1) (VString (dateText y m d)) = true.
Proof.
  assert (Hiff : forall t, isExpired h t (VString (dateText y m d)) = true
                           <-> MakeDate (MakeDay y (m - 1) d) 0 < t).
  { intros t. unfold isExpired.
    assert (Ht : truthy (VString (dateText y m d)) = true).
    { unfold dateText. destruct (RenewalFacts.isoYear_head y) as (c & s & -> & _). reflexivity. }
    rewrite Ht, (construct_dateText h y m d Hyear Hdate). cbn [negb]. apply Z.ltb_lt. }
  split; [apply Hiff|]. apply Hiff. unfold MakeDate. lia.
Qed.

Lemma X23_expired_from_UTC_midnight_witness :
  (isExpired west5 Samples.today (VString (dateText 2024 11 2)) = true
   <-> MakeDate (MakeDay 2024 (11 - 1) 2) 0 < Samples.today)
  /\ isExpired west5 (MakeDate (MakeDay 2024 (11 - 1) 2) 1) (VString (dateText 2024 11 2))
     = true.
Proof.
  apply (X23_expired_from_UTC_midnight west5 Samples.today 2024 11 2).
  - lia.
  - split; [lia | vm_compute; split; discriminate].
Defined.

Module WestFacts.
Section West.
Variable h : Host.
Variable off : Z.
Hypothesis Htz : fixedOffset h off.
Hypothesis Hoff : - msPerDay < off < 0.

Lemma local_day_before day : MakeDate day 0 + off = MakeDate (day - 1) (msPerDay + off).
Proof using Type. unfold MakeDate. lia. Qed.

Lemma MakeDay_day_before y m d : MakeDay y m d - 1 = MakeDay y m (d - 1).
Proof using Type. unfold MakeDay. lia. Qed.

Lemma getMonth_west y mn d :
  0 <= mn <= 11 -> 2 <= d <= daysInMonth y (mn + 1) ->
  getMonth h (Some (MakeDate (MakeDay y mn d) 0)) = Some mn.
Proof using Htz Hoff.
  intros Hmn Hd. unfold getMonth. rewrite (LocalTime_fixed h off Htz).
  rewrite local_day_before, MakeDay_day_before.
  destruct (civil_of_MakeDay y mn (d - 1) (msPerDay + off)) as (_ & -> & _);
    (reflexivity || lia).
Qed.

Lemma setMonth_west y mn d k :
  0 <= mn <= 11 -> 2 <= d <= daysInMonth y (mn + 1) ->
  setMonth h (Some (MakeDate (MakeDay y mn d) 0)) (Some k)
  = TimeClip (MakeDate (MakeDay y k d) 0).
Proof using Htz Hoff.
  intros Hmn Hd. unfold setMonth. cbv zeta.
  rewrite (UTC_fixed h off Htz), !(LocalTime_fixed h off Htz).
  rewrite local_day_before, MakeDay_day_before.
  destruct (civil_of_MakeDay y mn (d - 1) (msPerDay + off)) as (-> & _ & ->); try lia.
  rewrite TimeWithinDay_MakeDate by lia.
  f_equal. unfold MakeDate, MakeDay. lia.
Qed.

Lemma calculateRenewalDate_west y m d vm n :
  0 <= y <= 9999 -> validDate y m d -> 2 <= d ->
  truthy vm = true -> parseInt vm = Some n -> 0 < n <= 3000000 ->
  calculateRenewalDate h (VString (dateText y m d)) vm
  = Normal (showDate (addMonthsRolling y m d n)).
Proof using Htz Hoff.
  intros Hy [Hm Hd] Hd2 Hvm Hn Hpos.
  unfold calculateRenewalDate. rewrite MonthFacts.truthy_dateText, Hvm. cbn [negb orb].
  rewrite construct_dateText by (assumption || (split; assumption)).
  assert (Hd' : 2 <= d <= daysInMonth y (m - 1 + 1)) by (replace (m - 1 + 1) with m by lia; lia).
  rewrite getMonth_west, Hn by (assumption || lia). cbn [numAdd].
  rewrite setMonth_west by (assumption || lia).
  rewrite MakeDay_normalize.
  unfold addMonthsRolling.
  set (k := m - 1 + n). set (ty := y + k / 12). set (mn := k mod 12).
  assert (Hmn : 0 <= mn <= 11) by (subst mn; Z.div_mod_to_equations; lia).
  assert (Hty : 0 <= ty <= 260001) by (subst ty k; Z.div_mod_to_equations; lia).
  pose proof (daysInMonth_bounds y m) as Hb.
  pose proof (DayFromYear_bounds ty) as Hdf.
  pose proof (LeapDays_bounds ty) as Hl.
  destruct (Z.leb_spec d (daysInMonth ty (mn + 1))) as [Hfit | Hover].
  - rewrite TimeClip_day.
    2:{ rewrite MakeDay_in_range by lia.
        pose proof (monthStart_bounds mn (LeapDays ty) Hl). lia. }
    unfold toISOString. rewrite isoDate_civil by lia.
    cbn [showDate]. f_equal. apply splitHead_dateText; lia.
  - destruct (MakeDay_overflow ty mn d Hmn) as (Hm10 & -> & Hrest); [lia|].
    replace (mn + 2) with (mn + 1 + 1) in Hrest by lia.
    pose proof (daysInMonth_bounds ty (mn + 1)) as Hb1.
    pose proof (daysInMonth_bounds ty (mn + 1 + 1)) as Hb2.
    rewrite TimeClip_day.
    2:{ rewrite MakeDay_in_range by lia.
        pose proof (monthStart_bounds (mn + 1) (LeapDays ty) Hl). lia. }
    unfold toISOString.
    rewrite isoDate_civil by lia.
    cbn [showDate]. f_equal. apply splitHead_dateText; lia.
Qed.

End West.
End WestFacts.

(** X24: in a zone at a constant offset west of UTC, every activation
    date other than the first day of a month gives the same renewal date
    as in the zones east of UTC. *)
Theorem X24_west_of_UTC_agrees_after_the_first
  (h : Host) (off y m d : Z) (validityMonths : value) (n : Z)
  (Hzone : fixedOffset h off) (Hwest : - msPerDay < off < 0)
  (Hyear : 0 <= y <= 9999) (Hdate : validDate y m d) (Hday : 2 <= d)
  (Hmonths : parseInt validityMonths = Some n) (Hpositive : 0 < n <= 3000000) :
  calculateRenewalDate h (VString (dateText y m d)) validityMonths
  = Normal (showDate (addMonthsRolling y m d n)).
Proof.
  apply (WestFacts.calculateRenewalDate_west h off); try assumption.
  apply (RenewalFacts.parseInt_positive_truthy _ n); [assumption | lia].
Qed.

Lemma X24_west_of_UTC_agrees_after_the_first_witness :
  calculateRenewalDate west5 (VString (dateText 2024 1 31)) (VString "1")
  = Normal (showDate (addMonthsRolling 2024 1 31 1)).
Proof.
  apply (X24_west_of_UTC_agrees_after_the_first west5 (-18000000) 2024 1 31 (VString "1") 1).
  - intros t u. reflexivity.
  - unfold msPerDay. lia.
  - lia.
  - split; [lia | vm_compute; split; discriminate].
  - lia.
  - vm_compute. reflexivity.
  - lia.
Defined.
